(** * Storefront product and content pages: a shallow embedding

    The development follows two route modules of the storefront:

    - [app/(default)/product/[slug]/page.tsx]: the product page, with its
      metadata step [generateMetadata], its render step [Product], the
      selection of option values from the query string, the reconciliation
      of the image list with the product's default image, and the price
      block of [ProductDetails];
    - the content page route ([generateMetadata] and [WebPage] over
      [getWebPage]).

    JavaScript values are modelled as the language defines them: strings are
    sequences of UTF-16 code units, numbers are IEEE 754 binary64 values (the
    kernel's primitive floats), [Number(s)] is the StringToNumber operation
    of ECMAScript. *)

From Stdlib Require Import ZArith NArith List Bool Ascii String Lia.
From Stdlib Require Import Floats.
Import ListNotations.

Set Implicit Arguments.

(** ** JavaScript strings *)

Module Js.

(** A string is a list of UTF-16 code units. *)
Definition code_unit := N.
Definition jsstring := list code_unit.

Definition cu (a : ascii) : code_unit := N_of_ascii a.

(** [lit "abc"] is the string of a source literal (ASCII only). *)
Definition lit (s : string) : jsstring := map N_of_ascii (list_ascii_of_string s).

Definition string_eqb (a b : jsstring) : bool :=
  if list_eq_dec N.eq_dec a b then true else false.

(** A string is falsy exactly when it is empty. *)
Definition string_truthy (s : jsstring) : bool :=
  match s with [] => false | _ :: _ => true end.

(** [s.slice(0, n)] for a non-negative [n]. *)
Definition slice0 (n : nat) (s : jsstring) : jsstring := firstn n s.

(** [parts.join(sep)] on an array of strings. *)
Fixpoint join (sep : jsstring) (parts : list jsstring) : jsstring :=
  match parts with
  | [] => []
  | [p] => p
  | p :: rest => p ++ sep ++ join sep rest
  end.

(** [s.split(sep)] for a one-unit separator: the pieces between the
    occurrences of [sep], the empty ones included. *)
Fixpoint split_at (sep : code_unit) (cur : jsstring) (s : jsstring) : list jsstring :=
  match s with
  | [] => [rev cur]
  | c :: rest =>
      if N.eqb c sep then rev cur :: split_at sep [] rest
      else split_at sep (c :: cur) rest
  end.

Definition split (sep : code_unit) (s : jsstring) : list jsstring := split_at sep [] s.

(** ** JavaScript numbers *)

Definition number := float.

Definition isNaN (x : number) : bool := PrimFloat.is_nan x.

(** [a !== b] on two numbers: IEEE inequality, so [NaN !== NaN] holds and
    [+0 !== -0] does not. *)
Definition strict_neq (a b : number) : bool := negb (PrimFloat.eqb a b).

(** ToBoolean on a number: [+0], [-0] and [NaN] are falsy. *)
Definition number_truthy (x : number) : bool :=
  negb (PrimFloat.is_zero x || PrimFloat.is_nan x).

(** [Number.isInteger]: finite, with no fractional part. *)
Definition isInteger (x : number) : bool :=
  match Prim2SF x with
  | S754_zero _ => true
  | S754_finite _ m e =>
      (0 <=? e)%Z || (Z.pos m mod 2 ^ (- e) =? 0)%Z
  | S754_infinity _ | S754_nan => false
  end.

(** *** StringToNumber *)

(** StrWhiteSpaceChar: WhiteSpace (TAB, VT, FF, ZWNBSP and the space
    separators of Unicode) and LineTerminator (LF, CR, LS, PS). *)
Definition isWhiteSpace (c : code_unit) : bool :=
  ((9 <=? c) && (c <=? 13) || (c =? 32) || (c =? 160) || (c =? 5760)
   || (8192 <=? c) && (c <=? 8202) || (c =? 8232) || (c =? 8233)
   || (c =? 8239) || (c =? 8287) || (c =? 12288) || (c =? 65279))%N.

Fixpoint trimStart (s : jsstring) : jsstring :=
  match s with
  | c :: rest => if isWhiteSpace c then trimStart rest else s
  | [] => []
  end.

Definition trim (s : jsstring) : jsstring := rev (trimStart (rev (trimStart s))).

(** The value of a digit in the given radix, when [c] is one. *)
Definition digit_value (radix : N) (c : code_unit) : option N :=
  let v :=
    if ((48 <=? c) && (c <=? 57))%N then Some (c - 48)%N
    else if ((97 <=? c) && (c <=? 102))%N then Some (c - 87)%N
    else if ((65 <=? c) && (c <=? 70))%N then Some (c - 55)%N
    else None in
  match v with
  | Some d => if (d <? radix)%N then Some d else None
  | None => None
  end.

(** The longest prefix of digits, as their values, and what follows it. *)
Fixpoint span_digits (radix : N) (s : jsstring) : list N * jsstring :=
  match s with
  | c :: rest =>
      match digit_value radix c with
      | Some d => let (ds, r) := span_digits radix rest in (d :: ds, r)
      | None => ([], s)
      end
  | [] => ([], [])
  end.

Definition digits_value (radix : N) (ds : list N) : N :=
  fold_left (fun acc d => acc * radix + d)%N ds 0%N.

(** A literal's mathematical value is [mantissa * 10 ^ exponent]. *)
Record decimal := { mantissa : N; exponent : Z }.

(** SignedInteger: an optional sign and at least one decimal digit, up to
    the end of the string. *)
Definition parse_exponent (s : jsstring) : option Z :=
  let '(neg, body) :=
    match s with
    | c :: rest =>
        if (c =? cu "-")%N then (true, rest)
        else if (c =? cu "+")%N then (false, rest)
        else (false, s)
    | [] => (false, s)
    end in
  match span_digits 10 body with
  | ((_ :: _) as ds, []) =>
      let v := Z.of_N (digits_value 10 ds) in
      Some (if neg then (- v)%Z else v)
  | _ => None
  end.

(** StrUnsignedDecimalLiteral without [Infinity]: digits, an optional
    fraction, an optional exponent part; at least one digit before or after
    the point. *)
Definition parse_unsigned_decimal (s : jsstring) : option decimal :=
  let (ip, r1) := span_digits 10 s in
  let (fp, r2) :=
    match r1 with
    | c :: rest => if (c =? cu ".")%N then span_digits 10 rest else ([], r1)
    | [] => ([], r1)
    end in
  match ip, fp with
  | [], [] => None
  | _, _ =>
      let m := digits_value 10 (ip ++ fp) in
      let shift := (- Z.of_nat (List.length fp))%Z in
      match r2 with
      | [] => Some {| mantissa := m; exponent := shift |}
      | c :: rest =>
          if ((c =? cu "e") || (c =? cu "E"))%N then
            match parse_exponent rest with
            | Some e => Some {| mantissa := m; exponent := (e + shift)%Z |}
            | None => None
            end
          else None
      end
  end.

(** The Number value for a mathematical value: the nearest binary64 value,
    ties to even, overflowing to an infinity. *)
Definition round_decimal (neg : bool) (d : decimal) : number :=
  match mantissa d with
  | N0 => if neg then PrimFloat.neg_zero else PrimFloat.zero
  | Npos m =>
      SF2Prim
        (match exponent d with
         | Zneg e =>
             SFdiv prec emax (S754_finite neg m 0) (S754_finite false (10 ^ e)%positive 0)
         | e =>
             binary_normalize prec emax
               (if neg then Z.neg (m * Z.to_pos (10 ^ e))%positive
                else Z.pos (m * Z.to_pos (10 ^ e))%positive) 0 false
         end)
  end.

(** StrDecimalLiteral: an optional sign, then [Infinity] or an unsigned
    decimal literal. *)
Definition parse_decimal_literal (s : jsstring) : option number :=
  let '(neg, body) :=
    match s with
    | c :: rest =>
        if (c =? cu "-")%N then (true, rest)
        else if (c =? cu "+")%N then (false, rest)
        else (false, s)
    | [] => (false, s)
    end in
  if string_eqb body (lit "Infinity") then
    Some (if neg then PrimFloat.neg_infinity else PrimFloat.infinity)
  else
    match parse_unsigned_decimal body with
    | Some d => Some (round_decimal neg d)
    | None => None
    end.

(** NonDecimalIntegerLiteral: [0x], [0o] or [0b] (either case) and at
    least one digit of that radix; it takes no sign. *)
Definition parse_non_decimal (s : jsstring) : option number :=
  match s with
  | z :: p :: body =>
      if (z =? cu "0")%N then
        let radix :=
          if ((p =? cu "x") || (p =? cu "X"))%N then Some 16%N
          else if ((p =? cu "o") || (p =? cu "O"))%N then Some 8%N
          else if ((p =? cu "b") || (p =? cu "B"))%N then Some 2%N
          else None in
        match radix with
        | Some r =>
            match span_digits r body with
            | ((_ :: _) as ds, []) =>
                Some (round_decimal false {| mantissa := digits_value r ds; exponent := 0 |})
            | _ => None
            end
        | None => None
        end
      else None
  | _ => None
  end.

(** StringToNumber: white space is trimmed on both sides; the empty string
    is [+0]; a string that is no StrNumericLiteral is [NaN]. *)
Definition StringToNumber (s : jsstring) : number :=
  match trim s with
  | [] => PrimFloat.zero
  | t =>
      match parse_non_decimal t with
      | Some x => x
      | None =>
          match parse_decimal_literal t with
          | Some x => x
          | None => PrimFloat.nan
          end
      end
  end.

End Js.


Import Js.

(** ** Route handlers: what a step can end with

    [notFound()] never returns: it throws the framework's not-found signal,
    which ends the step. A step either returns a value or ends that way. *)

Inductive response (A : Type) : Type :=
| Returned (a : A)
| NotFound.

Arguments NotFound {A}.

Definition bind {A B : Type} (m : response A) (k : A -> response B) : response B :=
  match m with
  | Returned a => k a
  | NotFound => NotFound
  end.

Notation "x <- m ;; k" := (bind m (fun x => k))
  (at level 61, m at next level, right associativity).

(** [notFound()] as a statement or as a returned expression. *)
Definition notFound {A : Type} : response A := NotFound.

(** [if (!x) { notFound(); }] on a nullable [x]. *)
Definition orNotFound {A : Type} (x : option A) : response A :=
  match x with
  | Some a => Returned a
  | None => notFound
  end.

(** An object property that may be missing, [null], or set. *)
Inductive field (A : Type) : Type :=
| Absent
| Null
| Present (a : A).

Arguments Absent {A}.
Arguments Null {A}.

(** The framework's [Metadata], with the properties the two routes set. *)
Inductive Keywords : Type :=
| KeywordString (s : jsstring)
| KeywordList (l : list jsstring).

Record OpenGraphImage := { og_url : jsstring; og_alt : jsstring }.

Record Metadata := {
  title : field jsstring;
  description : field jsstring;
  keywords : field Keywords;
  openGraph : field (list OpenGraphImage)
}.

(** The object literal [{}]. *)
Definition emptyMetadata : Metadata :=
  {| title := Absent; description := Absent; keywords := Absent; openGraph := Absent |}.

(** ** Rendered output

    The children a JSX expression evaluates to. React renders a string or a
    number child as text and renders nothing for [false], [null] and
    [undefined]. *)

#[warnings="-register-all"]
Inductive node : Type :=
| Text (s : jsstring)
| Num (x : number)
| Nothing
| Elem (tag className : string) (children : list node)
| Fragment (children : list node).

(** ** The product page *)

Module ProductPage.

(** *** Data fetched by [getProduct] *)

Record Image := { url : jsstring; altText : jsstring; isDefault : bool }.

Module DefaultImage.
Record t := { url : jsstring; altText : jsstring }.
End DefaultImage.

Record Money := { value : number }.

Record PriceRange := { min : Money; max : Money }.

Record Prices := {
  price : Money;
  retailPrice : option Money;
  salePrice : option Money;
  basePrice : option Money;
  priceRange : PriceRange
}.

Record Seo := {
  pageTitle : jsstring;
  metaDescription : jsstring;
  metaKeywords : jsstring
}.

Record ProductData := {
  entityId : number;
  name : jsstring;
  plainTextDescription : jsstring;
  seo : Seo;
  defaultImage : option DefaultImage.t;
  images : list Image;
  prices : option Prices
}.

(** *** Query parameters: [searchParams]

    A value is a string, an array of strings, or [undefined]. The object is
    the list of its own properties in the order [Object.keys] lists them. *)

Inductive param : Type :=
| PUndefined
| PString (s : jsstring)
| PArray (items : list jsstring).

Definition SearchParams := list (jsstring * param).

Definition keys (o : SearchParams) : list jsstring := map fst o.

(** [o[k]]: the property's value, [undefined] when there is none. *)
Fixpoint get (o : SearchParams) (k : jsstring) : param :=
  match o with
  | [] => PUndefined
  | (k', v) :: rest => if string_eqb k' k then v else get rest k
  end.

(** [const { k, ...rest } = o]: the properties of [o] other than [k]. *)
Definition omit (k : jsstring) (o : SearchParams) : SearchParams :=
  filter (fun kv => negb (string_eqb (fst kv) k)) o.

(** [Number(v)]: [undefined] is [NaN]; an array converts through
    [join(",")]; a string through StringToNumber. *)
Definition Number (v : param) : number :=
  match v with
  | PUndefined => PrimFloat.nan
  | PString s => StringToNumber s
  | PArray items => StringToNumber (join (lit ",") items)
  end.

Record OptionValueId := { optionEntityId : number; valueEntityId : number }.

(** The entry built for one key of the query. *)
Definition toOptionValueId (searchParams : SearchParams) (option : jsstring) : OptionValueId :=
  {| optionEntityId := Number (PString option);
     valueEntityId := Number (get searchParams option) |}.

Definition bothParsed (o : OptionValueId) : bool :=
  negb (isNaN (optionEntityId o)) && negb (isNaN (valueEntityId o)).

(** [Object.keys(options).map(...).filter(...)], [options] being
    [searchParams] without [slug]. *)
Definition optionValueIds (searchParams : SearchParams) : list OptionValueId :=
  let options := omit (lit "slug") searchParams in
  filter bothParsed (map (toOptionValueId searchParams) (keys options)).

(** *** Image reconciliation

    [images] is the very array [product.images] (no copy is made), so the
    update is an update of the product. *)

Definition clearDefault (image : Image) : Image :=
  {| url := url image; altText := altText image; isDefault := false |}.

Definition canonicalEntry (d : DefaultImage.t) : Image :=
  {| url := DefaultImage.url d; altText := DefaultImage.altText d; isDefault := true |}.

Definition topLevelDefaultImg (product : ProductData) : option Image :=
  find isDefault (images product).

(** [topLevelDefaultImg?.url !== product.defaultImage.url]. *)
Definition urlDiffers (top : option Image) (d : DefaultImage.t) : bool :=
  match top with
  | Some image => negb (string_eqb (url image) (DefaultImage.url d))
  | None => true
  end.

Definition setImages (product : ProductData) (imgs : list Image) : ProductData :=
  {| entityId := entityId product;
     name := name product;
     plainTextDescription := plainTextDescription product;
     seo := seo product;
     defaultImage := defaultImage product;
     images := imgs;
     prices := prices product |}.

Definition reconcileImages (product : ProductData) : ProductData :=
  match defaultImage product with
  | Some d =>
      if urlDiffers (topLevelDefaultImg product) d then
        setImages product (map clearDefault (images product) ++ [canonicalEntry d])
      else product
  | None => product
  end.

(** The number of images flagged default. *)
Definition defaultCount (imgs : list Image) : nat :=
  List.length (filter isDefault imgs).


(** *** The price block of [ProductDetails] *)

Section PriceBlock.

(** [currencyFormatter.format]: the platform's en-US currency formatter. *)
Variable format : number -> jsstring.

(** [product.prices?.priceRange.min.value !==
    product.prices?.priceRange.max.value]; without prices both sides are
    [undefined]. *)
Definition showPriceRange (product : ProductData) : bool :=
  match prices product with
  | Some p => strict_neq (value (min (priceRange p))) (value (max (priceRange p)))
  | None => false
  end.

Definition rangeLine (p : Prices) : node :=
  Elem "p" "text-h4"
    [Text (format (value (min (priceRange p)))); Text (lit " -"); Text (lit " ");
     Text (format (value (max (priceRange p))))].

Definition msrpLine (retail : Money) : node :=
  Elem "p" "text-h4"
    [Text (lit "MSRP:"); Text (lit " ");
     Elem "span" "line-through" [Text (format (value retail))]].

Definition wasNow (base sale : Money) : node :=
  Fragment
    [Text (lit "Was:"); Text (lit " ");
     Elem "span" "line-through" [Text (format (value base))];
     Elem "br" "" [];
     Fragment [Text (lit "Now: "); Text (format (value sale))]].

(** [product.prices.price.value && (<>{format(value)}</>)]: a falsy value
    is itself the child. *)
Definition plainPrice (p : Prices) : node :=
  if number_truthy (value (price p)) then Fragment [Text (format (value (price p)))]
  else Num (value (price p)).

(** [{product.prices && (<div className="my-6">...</div>)}]. *)
Definition priceBlock (product : ProductData) : node :=
  match prices product with
  | None => Nothing
  | Some p =>
      Elem "div" "my-6"
        [if showPriceRange product then rangeLine p
         else
           Fragment
             [match retailPrice p with
              | Some retail => msrpLine retail
              | None => Nothing
              end;
              match salePrice p, basePrice p with
              | Some sale, Some base => wasNow base sale
              | _, _ => plainPrice p
              end]]
  end.

End PriceBlock.

(** What a reader of the rendered block can tell apart: the pieces inside
    the [div], and which display each piece is. *)
Definition pieces (block : node) : list node :=
  match block with
  | Elem _ _ [Fragment inner] => inner
  | Elem _ _ children => children
  | _ => []
  end.

Definition isRange (n : node) : bool :=
  match n with
  | Elem _ _ [Text _; Text dash; Text _; Text _] => string_eqb dash (lit " -")
  | _ => false
  end.

Definition isMsrp (n : node) : bool :=
  match n with
  | Elem _ _ [Text label; Text _; Elem _ "line-through" [Text _]] =>
      string_eqb label (lit "MSRP:")
  | _ => false
  end.

Definition isWasNow (n : node) : bool :=
  match n with
  | Fragment [Text was; Text _; Elem _ "line-through" [Text _]; Elem _ _ [];
              Fragment [Text now; Text _]] =>
      string_eqb was (lit "Was:") && string_eqb now (lit "Now: ")
  | _ => false
  end.

(** A lone text in a fragment: the plain price, not struck through. *)
Definition isPlainPrice (n : node) : bool :=
  match n with
  | Fragment [Text _] => true
  | _ => false
  end.

(** *** The two steps of the route *)

Record ProductPageParams := { slug : jsstring }.

(** What the render step hands to the components of the page. *)
Record ProductView := {
  breadCrumbs_productId : number;
  gallery_images : list Image;
  details_product : ProductData;
  descriptionAndReviews_product : ProductData;
  related_optionValueIds : list OptionValueId;
  related_productId : number
}.

Section Steps.

(** [getProduct(productId, optionValueIds?)]: the catalog query, [None] for
    a product the catalog does not have. *)
Variable getProduct : number -> option (list OptionValueId) -> option ProductData.

Definition generateMetadata (params : ProductPageParams) : response Metadata :=
  let productId := Number (PString (slug params)) in
  match getProduct productId None with
  | None => Returned emptyMetadata
  | Some product =>
      let s := seo product in
      let top_url :=
        match defaultImage product with
        | Some d => Some (DefaultImage.url d, DefaultImage.altText d)
        | None => None
        end in
      Returned
        {| title :=
             Present (if string_truthy (pageTitle s) then pageTitle s else name product);
           description :=
             Present (if string_truthy (metaDescription s) then metaDescription s
                      else slice0 150 (plainTextDescription product) ++ lit "...");
           keywords :=
             if string_truthy (metaKeywords s)
             then Present (KeywordList (split (cu ",") (metaKeywords s)))
             else Null;
           openGraph :=
             match top_url with
             | Some (u, alt) =>
                 if string_truthy u then Present [{| og_url := u; og_alt := alt |}] else Null
             | None => Null
             end |}
  end.

Definition Product (params : ProductPageParams) (searchParams : SearchParams)
  : response ProductView :=
  let productId := Number (PString (slug params)) in
  let ids := optionValueIds searchParams in
  match getProduct productId (Some ids) with
  | None => notFound
  | Some fetched =>
      let product := reconcileImages fetched in
      Returned
        {| breadCrumbs_productId := productId;
           gallery_images := images product;
           details_product := product;
           descriptionAndReviews_product := product;
           related_optionValueIds := ids;
           related_productId := productId |}
  end.

End Steps.

End ProductPage.

(** ** The content page *)

Module ContentPage.

Inductive PageType : Type :=
| ContactPage
| NormalPage
| OtherPage (typename : jsstring).

Record Seo := {
  pageTitle : jsstring;
  metaDescription : jsstring;
  metaKeywords : jsstring
}.

Record WebPageData := {
  entityId : number;
  name : jsstring;
  htmlBody : jsstring;
  typename : PageType;
  seo : Seo;
  contactFields : list jsstring
}.

Record WebPageParams := { page : jsstring }.

Section Steps.

Variable ReCaptchaSettings : Type.

(** [getWebPage({ path })], [None] for a path with no page. *)
Variable getWebPage : jsstring -> option WebPageData.
Variable getReCaptchaSettings : ReCaptchaSettings.

(** What the render step hands to the components of the page. *)
Inductive WebPageView : Type :=
| PageContentOnly (content title : jsstring)
| PageContentAndContactUs (content title : jsstring)
    (fields : list jsstring) (pageEntityId : number)
    (reCaptchaSettings : ReCaptchaSettings).

Definition pathOf (params : WebPageParams) : jsstring := lit "/" ++ page params.

Definition generateMetadata (params : WebPageParams) : response Metadata :=
  let path := pathOf params in
  webpage <- orNotFound (getWebPage path) ;;
  let s := seo webpage in
  Returned
    {| title := Present (pageTitle s);
       description := Present (metaDescription s);
       keywords := Present (KeywordString (metaKeywords s));
       openGraph := Absent |}.

Definition WebPage (params : WebPageParams) : response WebPageView :=
  let path := pathOf params in
  webpage <- orNotFound (getWebPage path) ;;
  match typename webpage with
  | ContactPage =>
      let reCaptchaSettings := getReCaptchaSettings in
      Returned
        (PageContentAndContactUs (htmlBody webpage) (name webpage)
           (contactFields webpage) (entityId webpage) reCaptchaSettings)
  | NormalPage | OtherPage _ =>
      Returned (PageContentOnly (htmlBody webpage) (name webpage))
  end.

End Steps.

End ContentPage.

(** ** The rest of [ProductDetails]

    The component renders, around the price block, the brand line, the name
    and the grid of additional details. The fields read here belong to the
    same product object; their types are not fixed by the page, so each is a
    JavaScript value. *)

Module Details.
Import ProductPage.

Inductive jsvalue : Type :=
| VUndefined
| VNull
| VBoolean (b : bool)
| VNumber (x : number)
| VString (s : jsstring).

(** [Boolean(v)]. *)
Definition Boolean (v : jsvalue) : bool :=
  match v with
  | VUndefined | VNull => false
  | VBoolean b => b
  | VNumber x => number_truthy x
  | VString s => string_truthy s
  end.

(** [{v}] as a JSX child. *)
Definition child (v : jsvalue) : node :=
  match v with
  | VString s => Text s
  | VNumber x => Num x
  | VUndefined | VNull | VBoolean _ => Nothing
  end.

Record Brand := { brandName : jsvalue }.

Record Weight := { weightValue : jsvalue; weightUnit : jsvalue }.

Record CustomField := {
  customFieldEntityId : number;
  customFieldName : jsvalue;
  customFieldValue : jsvalue
}.

Record Availability := { availabilityDescription : jsvalue }.

Record DetailFields := {
  brand : option Brand;
  sku : jsvalue;
  upc : jsvalue;
  minPurchaseQuantity : jsvalue;
  maxPurchaseQuantity : jsvalue;
  availabilityV2 : Availability;
  condition : jsvalue;
  weight : option Weight;
  customFields : option (list CustomField)
}.

(** [{shown && (<div><h3 ...>title</h3><p>body</p></div>)}], [shown] being
    a boolean. *)
Definition detail (shown : bool) (heading : string) (body : list node) : node :=
  if shown then
    Elem "div" "" [Elem "h3" "text-base font-bold" [Text (lit heading)]; Elem "p" "" body]
  else Nothing.

(** One custom field (its [key] is not part of the output). *)
Definition customFieldEntry (customField : CustomField) : node :=
  Elem "div" ""
    [Elem "h3" "text-base font-bold" [child (customFieldName customField)];
     Elem "p" "" [child (customFieldValue customField)]].

(** The children of the grid, in source order; the array of custom fields
    is one child. *)
Definition detailsGrid (f : DetailFields) : list node :=
  [detail (Boolean (sku f)) "SKU" [child (sku f)];
   detail (Boolean (upc f)) "UPC" [child (upc f)];
   detail (Boolean (minPurchaseQuantity f)) "Minimum purchase"
     [child (minPurchaseQuantity f)];
   detail (Boolean (maxPurchaseQuantity f)) "Maxiumum purchase"
     [child (maxPurchaseQuantity f)];
   detail (Boolean (availabilityDescription (availabilityV2 f))) "Availability"
     [child (availabilityDescription (availabilityV2 f))];
   detail (Boolean (condition f)) "Condition" [child (condition f)];
   match weight f with
   | Some w =>
       detail true "Weight" [child (weightValue w); Text (lit " "); child (weightUnit w)]
   | None => Nothing
   end;
   match customFields f with
   | Some fields => Fragment (map customFieldEntry fields)
   | None => Nothing
   end].

Definition additionalDetails (f : DetailFields) : node :=
  Elem "div" "my-12"
    [Elem "h2" "mb-4 text-h5" [Text (lit "Additional details")];
     Elem "div" "grid gap-3 sm:grid-cols-2" (detailsGrid f)].

(** [{product.brand && (<p ...>{product.brand.name}</p>)}]. *)
Definition brandLine (f : DetailFields) : node :=
  match brand f with
  | Some b =>
      Elem "p" "mb-2 font-semibold uppercase text-gray-500" [child (brandName b)]
  | None => Nothing
  end.

(** What [ProductDetails] renders and hands to the components it uses. *)
Record DetailsView := {
  view_brand : node;
  view_heading : node;
  reviewSummary_productId : number;
  view_prices : node;
  productForm_product : ProductData;
  view_additional : node;
  productSchema_product : ProductData
}.

Definition ProductDetails (format : number -> jsstring)
  (product : ProductData) (f : DetailFields) : DetailsView :=
  {| view_brand := brandLine f;
     view_heading := Elem "h1" "mb-4 text-h2" [Text (name product)];
     reviewSummary_productId := entityId product;
     view_prices := priceBlock format product;
     productForm_product := product;
     view_additional := additionalDetails f;
     productSchema_product := product |}.

(** What is displayed of a list of children: [false], [null] and
    [undefined] leave nothing, an array or fragment stands for its items. *)
Definition displayed (children : list node) : list node :=
  flat_map (fun n =>
              match n with
              | Nothing => []
              | Fragment items => items
              | other => [other]
              end) children.

(** A box of the grid: a [div] holding a heading and a paragraph. *)
Definition isDetailBox (n : node) : bool :=
  match n with
  | Elem "div" _ [Elem "h3" _ _; Elem "p" _ _] => true
  | _ => false
  end.

(** How many of the seven fixed details are displayed. *)
Definition fixedDetails (f : DetailFields) : nat :=
  List.length
    (filter (fun shown : bool => shown)
       [Boolean (sku f); Boolean (upc f); Boolean (minPurchaseQuantity f);
        Boolean (maxPurchaseQuantity f);
        Boolean (availabilityDescription (availabilityV2 f));
        Boolean (condition f);
        match weight f with Some _ => true | None => false end]).

(** How many custom fields there are ([null] has none). *)
Definition customFieldCount (f : DetailFields) : nat :=
  match customFields f with
  | Some fields => List.length fields
  | None => 0
  end.

End Details.

(** ** Characters of numeric strings *)

Module Chars.

Definition isHexDigit (c : code_unit) : bool :=
  ((48 <=? c) && (c <=? 57) || (97 <=? c) && (c <=? 102) || (65 <=? c) && (c <=? 70))%N.

(** The code units that occur in some string [Number] reads as a number:
    white space, digits of any radix, the radix letters, the point, the
    signs, and the letters of [Infinity]. *)
Definition numericChar (c : code_unit) : bool :=
  isWhiteSpace c || isHexDigit c
  || existsb (N.eqb c)
       (map cu ["x"; "X"; "o"; "O"; "."; "+"; "-"; "I"; "n"; "i"; "t"; "y"]%char).

End Chars.

(** ** Sample data *)

Module Samples.
Import ProductPage.

Definition image (u : string) (flag : bool) : Image :=
  {| url := lit u; altText := lit u; isDefault := flag |}.

Definition canonical (u : string) : DefaultImage.t :=
  {| DefaultImage.url := lit u; DefaultImage.altText := lit "front" |}.

Definition usd (x : number) : Money := {| value := x |}.

Definition flatPrices (x : number) : Prices :=
  {| price := usd x;
     retailPrice := None;
     salePrice := None;
     basePrice := None;
     priceRange := {| min := usd x; max := usd x |} |}.

Definition product (d : option DefaultImage.t) (imgs : list Image) (p : option Prices)
  : ProductData :=
  {| entityId := 77%float;
     name := lit "Mug";
     plainTextDescription := lit "A mug.";
     seo := {| pageTitle := []; metaDescription := []; metaKeywords := [] |};
     defaultImage := d;
     images := imgs;
     prices := p |}.

(** Two images flagged default, the first one with the canonical URL. *)
Definition twoFlagged : ProductData :=
  product (Some (canonical "a.png")) [image "a.png" true; image "b.png" true] None.

(** Two images flagged default that share the canonical URL. *)
Definition sameUrlTwice : ProductData :=
  product (Some (canonical "a.png")) [image "a.png" true; image "a.png" true] None.

(** Two images flagged default, the canonical URL being the second one's. *)
Definition secondMatches : ProductData :=
  product (Some (canonical "b.png")) [image "a.png" true; image "b.png" true] None.

(** One image flagged default, with the canonical URL. *)
Definition upToDate : ProductData :=
  product (Some (canonical "a.png")) [image "a.png" true; image "b.png" false] None.

(** No canonical default image, and an inconsistent catalog. *)
Definition noCanonical : ProductData :=
  product None [image "a.png" true; image "b.png" true] None.

(** A sale without a retail price: base 40, sale 30, price 30. *)
Definition saleNoRetail : Prices :=
  {| price := usd 30%float;
     retailPrice := None;
     salePrice := Some (usd 30%float);
     basePrice := Some (usd 40%float);
     priceRange := {| min := usd 30%float; max := usd 30%float |} |}.

Definition saleProduct : ProductData := product None [] (Some saleNoRetail).

(** A single price of 25, and a free product. *)
Definition plainProduct : ProductData := product None [] (Some (flatPrices 25%float)).

Definition freeProduct : ProductData := product None [] (Some (flatPrices 0%float)).

(** Queries: a selection next to a tracking parameter; a key that is a
    fraction and a value that is [Infinity]; an option with an empty value. *)
Definition mixedQuery : SearchParams :=
  [(lit "134", PString (lit "139")); (lit "color", PString (lit "red"))].

Definition fractionQuery : SearchParams :=
  [(lit ".5", PString (lit "2")); (lit "7", PString (lit "Infinity"))].

Definition emptyValueQuery : SearchParams := [(lit "134", PString [])].

Definition missingProduct : ProductPageParams := {| slug := lit "999" |}.

Definition aboutPage : ContentPage.WebPageParams := {| ContentPage.page := lit "about" |}.

(** A catalog with no product at all, and a site with no page. *)
Definition emptyCatalog : number -> option (list OptionValueId) -> option ProductData :=
  fun _ _ => None.

Definition emptySite : jsstring -> option ContentPage.WebPageData :=
  fun _ => None.

(** A formatter standing for the platform's: it prints every amount alike. *)
Definition dollars : number -> jsstring := fun _ => lit "$".

End Samples.

(** ** More sample data *)

Module MoreSamples.
Import ProductPage.

(** A product with SEO keywords and a long description. *)
Definition described : ProductData :=
  {| entityId := 77%float;
     name := lit "Mug";
     plainTextDescription := lit "A mug.";
     seo := {| pageTitle := [];
               metaDescription := [];
               metaKeywords := lit "mug,,cup" |};
     defaultImage := Some (Samples.canonical "b.png");
     images := [Samples.image "a.png" true; Samples.image "b.png" true];
     prices := Some Samples.saleNoRetail |}.

(** A catalog that has this product under every identifier. *)
Definition oneProduct : number -> option (list OptionValueId) -> option ProductData :=
  fun _ _ => Some described.

(** A price range from 10 to 20, with a retail price. *)
Definition rangePrices : Prices :=
  {| price := Samples.usd 10%float;
     retailPrice := Some (Samples.usd 25%float);
     salePrice := None;
     basePrice := None;
     priceRange := {| min := Samples.usd 10%float; max := Samples.usd 20%float |} |}.

Definition rangeProduct : ProductData := Samples.product None [] (Some rangePrices).

(** A repeated parameter arrives as an array. *)
Definition repeatedQuery : SearchParams :=
  [(lit "134", PArray [lit "139"; lit "140"])].

(** No numeric key at all. *)
Definition garbageQuery : SearchParams :=
  [(lit "color", PString (lit "red")); (lit "12", PUndefined)].

Definition contactPage : ContentPage.WebPageData :=
  {| ContentPage.entityId := 5%float;
     ContentPage.name := lit "Contact";
     ContentPage.htmlBody := lit "<p>Write to us</p>";
     ContentPage.typename := ContentPage.ContactPage;
     ContentPage.seo :=
       {| ContentPage.pageTitle := lit "Contact";
          ContentPage.metaDescription := [];
          ContentPage.metaKeywords := [] |};
     ContentPage.contactFields := [lit "email"] |}.

Definition oneSite : jsstring -> option ContentPage.WebPageData :=
  fun _ => Some contactPage.

(** Detail fields: a SKU, a minimum purchase of zero, a weight and two
    custom fields. *)
Definition mugDetails : Details.DetailFields :=
  {| Details.brand := None;
     Details.sku := Details.VString (lit "MUG-1");
     Details.upc := Details.VNull;
     Details.minPurchaseQuantity := Details.VNumber 0%float;
     Details.maxPurchaseQuantity := Details.VNull;
     Details.availabilityV2 := {| Details.availabilityDescription := Details.VString [] |};
     Details.condition := Details.VNull;
     Details.weight :=
       Some {| Details.weightValue := Details.VNumber 2%float;
               Details.weightUnit := Details.VString (lit "oz") |};
     Details.customFields :=
       Some [{| Details.customFieldEntityId := 1%float;
                Details.customFieldName := Details.VString (lit "Glaze");
                Details.customFieldValue := Details.VString (lit "matte") |};
             {| Details.customFieldEntityId := 2%float;
                Details.customFieldName := Details.VString (lit "Origin");
                Details.customFieldValue := Details.VString (lit "Lisbon") |}] |}.

End MoreSamples.

(** * Properties *)

Module JsFacts.

Lemma string_eqb_eq (a b : jsstring) : string_eqb a b = true <-> a = b.
Proof.
  unfold string_eqb. destruct (list_eq_dec N.eq_dec a b); split; congruence.
Qed.

Lemma string_eqb_refl (a : jsstring) : string_eqb a a = true.
Proof. now apply string_eqb_eq. Qed.

Lemma string_eqb_neq (a b : jsstring) : string_eqb a b = false <-> a <> b.
Proof.
  unfold string_eqb. destruct (list_eq_dec N.eq_dec a b); split; congruence.
Qed.

Lemma StringToNumber_empty : StringToNumber [] = PrimFloat.zero.
Proof. reflexivity. Qed.

Lemma StringToNumber_slug : isNaN (StringToNumber (lit "slug")) = true.
Proof. reflexivity. Qed.

(** An integer is a number: [NaN] is not an integer. *)
Lemma isInteger_not_NaN (x : number) : isInteger x = true -> isNaN x = false.
Proof.
  unfold isInteger, isNaN, Prim2SF.
  destruct (PrimFloat.is_nan x); [discriminate | reflexivity].
Qed.

End JsFacts.

(** ** Image reconciliation *)

Module ImageFacts.
Import ProductPage.

Lemma filter_clearDefault (imgs : list Image) :
  filter isDefault (map clearDefault imgs) = [].
Proof.
  induction imgs as [| image rest IH]; simpl; [reflexivity | exact IH].
Qed.

Lemma find_clearDefault (imgs : list Image) (extra : list Image) :
  find isDefault (map clearDefault imgs ++ extra) = find isDefault extra.
Proof.
  induction imgs as [| image rest IH]; simpl; [reflexivity | exact IH].
Qed.

Lemma defaultCount_app (a b : list Image) :
  defaultCount (a ++ b) = defaultCount a + defaultCount b.
Proof.
  unfold defaultCount. now rewrite filter_app, length_app.
Qed.

(** After a rewrite only the appended entry is flagged. *)
Lemma defaultCount_rewritten (imgs : list Image) (d : DefaultImage.t) :
  defaultCount (map clearDefault imgs ++ [canonicalEntry d]) = 1.
Proof.
  rewrite defaultCount_app. unfold defaultCount.
  now rewrite filter_clearDefault.
Qed.

(** The image [find] picks is flagged, so it counts. *)
Lemma find_some_count (imgs : list Image) (image : Image) :
  find isDefault imgs = Some image -> 1 <= defaultCount imgs.
Proof.
  intros H. apply find_some in H as [Hin Hflag].
  unfold defaultCount.
  assert (Hf : In image (filter isDefault imgs)) by (apply filter_In; auto).
  destruct (filter isDefault imgs); [contradiction | simpl; lia].
Qed.

Lemma reconcile_unfold_some (product : ProductData) (d : DefaultImage.t) :
  defaultImage product = Some d ->
  reconcileImages product =
    if urlDiffers (topLevelDefaultImg product) d
    then setImages product (map clearDefault (images product) ++ [canonicalEntry d])
    else product.
Proof.
  intros H. unfold reconcileImages. now rewrite H.
Qed.

(** Once rewritten, the first flagged image is the canonical one. *)
Lemma urlDiffers_rewritten (product : ProductData) (d : DefaultImage.t) :
  urlDiffers
    (topLevelDefaultImg
       (setImages product (map clearDefault (images product) ++ [canonicalEntry d]))) d
  = false.
Proof.
  unfold topLevelDefaultImg. simpl. rewrite find_clearDefault. simpl.
  now rewrite JsFacts.string_eqb_refl.
Qed.

(** C6. Image reconciliation is idempotent: reconciling an already
    reconciled product, its canonical default image being the same, gives
    the same product, hence the same image list, as reconciling once. *)
Theorem reconcileImages_idempotent (product : ProductData) :
  reconcileImages (reconcileImages product) = reconcileImages product /\
  images (reconcileImages (reconcileImages product)) = images (reconcileImages product).
Proof.
  assert (H : reconcileImages (reconcileImages product) = reconcileImages product);
    [| split; [exact H | now rewrite H]].
  destruct (defaultImage product) as [d |] eqn:Hd.
  - rewrite (reconcile_unfold_some product Hd).
    destruct (urlDiffers (topLevelDefaultImg product) d) eqn:Hdiff.
    + rewrite (@reconcile_unfold_some _ d) by exact Hd.
      now rewrite urlDiffers_rewritten.
    + rewrite (reconcile_unfold_some product Hd). now rewrite Hdiff.
  - unfold reconcileImages at 2. rewrite Hd.
    unfold reconcileImages. now rewrite Hd.
Qed.

(** C7. When the image the catalog flags default (the one [find] picks) has
    the canonical default image's URL, reconciliation changes nothing: the
    product, and so its image list and every flag, is the one fetched. *)
Theorem reconcileImages_same_url (product : ProductData) (d : DefaultImage.t) (top : Image)
  (Hd : defaultImage product = Some d)
  (Htop : topLevelDefaultImg product = Some top)
  (Hurl : url top = DefaultImage.url d) :
  reconcileImages product = product /\
  images (reconcileImages product) = images product.
Proof.
  assert (H : reconcileImages product = product).
  { rewrite (reconcile_unfold_some product Hd), Htop. simpl.
    now rewrite Hurl, JsFacts.string_eqb_refl. }
  split; [exact H | now rewrite H].
Qed.

Lemma reconcileImages_same_url_witness :
  defaultImage Samples.upToDate = Some (Samples.canonical "a.png") /\
  topLevelDefaultImg Samples.upToDate = Some (Samples.image "a.png" true) /\
  url (Samples.image "a.png" true) = DefaultImage.url (Samples.canonical "a.png") /\
  reconcileImages Samples.upToDate = Samples.upToDate /\
  images (reconcileImages Samples.upToDate) = images Samples.upToDate.
Proof.
  repeat (split; [reflexivity |]).
  apply (@reconcileImages_same_url Samples.upToDate (Samples.canonical "a.png")
           (Samples.image "a.png" true)); reflexivity.
Defined.

(** C8. Without a canonical default image no reconciliation happens: the
    product, its image list and every flag stay as fetched, however many
    images are flagged. *)
Theorem reconcileImages_no_default (product : ProductData)
  (Hd : defaultImage product = None) :
  reconcileImages product = product /\
  images (reconcileImages product) = images product /\
  defaultCount (images (reconcileImages product)) = defaultCount (images product).
Proof.
  assert (H : reconcileImages product = product).
  { unfold reconcileImages. now rewrite Hd. }
  rewrite H. auto.
Qed.

Lemma reconcileImages_no_default_witness :
  defaultImage Samples.noCanonical = None /\
  reconcileImages Samples.noCanonical = Samples.noCanonical /\
  images (reconcileImages Samples.noCanonical) = images Samples.noCanonical /\
  defaultCount (images (reconcileImages Samples.noCanonical)) =
    defaultCount (images Samples.noCanonical).
Proof.
  split; [reflexivity |].
  apply (@reconcileImages_no_default Samples.noCanonical); reflexivity.
Defined.

(** C2, as stated, fails: with two images flagged default, the first of
    which carries the canonical URL, nothing is rewritten and two flags
    remain. *)
Lemma two_defaults_survive :
  defaultImage Samples.twoFlagged = Some (Samples.canonical "a.png") /\
  defaultCount (images (reconcileImages Samples.twoFlagged)) = 2.
Proof. split; reflexivity. Qed.

(** C2, amended. For a product with a canonical default image, exactly one
    image is flagged default after reconciliation, provided the catalog
    flagged at most one image or the first image it flagged has another URL
    than the canonical one (none flagged counts as another URL). *)
Theorem reconcileImages_one_default (product : ProductData) (d : DefaultImage.t)
  (Hd : defaultImage product = Some d)
  (Hcatalog : defaultCount (images product) <= 1 \/
              urlDiffers (topLevelDefaultImg product) d = true) :
  defaultCount (images (reconcileImages product)) = 1.
Proof.
  rewrite (reconcile_unfold_some product Hd).
  destruct (urlDiffers (topLevelDefaultImg product) d) eqn:Hdiff.
  - simpl. apply defaultCount_rewritten.
  - destruct Hcatalog as [Hle | Hno]; [| discriminate].
    unfold urlDiffers in Hdiff.
    destruct (topLevelDefaultImg product) as [top |] eqn:Htop; [| discriminate].
    apply find_some_count in Htop. lia.
Qed.

Lemma reconcileImages_one_default_witness :
  defaultImage Samples.secondMatches = Some (Samples.canonical "b.png") /\
  (defaultCount (images Samples.secondMatches) <= 1 \/
   urlDiffers (topLevelDefaultImg Samples.secondMatches) (Samples.canonical "b.png") = true) /\
  defaultCount (images (reconcileImages Samples.secondMatches)) = 1.
Proof.
  split; [reflexivity |].
  split; [right; reflexivity |].
  apply (@reconcileImages_one_default Samples.secondMatches (Samples.canonical "b.png"));
    [reflexivity | right; reflexivity].
Defined.

(** The first flagged image of a list whose prefix has no flag. *)
Lemma find_after_unflagged (before rest : list Image) (first : Image) :
  forallb (fun i => negb (isDefault i)) before = true ->
  isDefault first = true ->
  find isDefault (before ++ first :: rest) = Some first.
Proof.
  intros Hbefore Hfirst.
  induction before as [| b before IH]; simpl.
  - now rewrite Hfirst.
  - simpl in Hbefore. apply andb_prop in Hbefore as [Hb Hrest].
    apply negb_true_iff in Hb. rewrite Hb. now apply IH.
Qed.

(** C10, as stated, fails when the first flagged image shares the URL of
    the later one: the canonical URL equals the URL of the second flagged
    image, and the list is left as it is. *)
Lemma shared_url_not_rewritten :
  defaultImage Samples.sameUrlTwice = Some (Samples.canonical "a.png") /\
  images Samples.sameUrlTwice =
    [] ++ Samples.image "a.png" true :: [] ++ Samples.image "a.png" true :: [] /\
  isDefault (Samples.image "a.png" true) = true /\
  url (Samples.image "a.png" true) = DefaultImage.url (Samples.canonical "a.png") /\
  images (reconcileImages Samples.sameUrlTwice) = images Samples.sameUrlTwice /\
  images (reconcileImages Samples.sameUrlTwice) <>
    map clearDefault (images Samples.sameUrlTwice) ++ [canonicalEntry (Samples.canonical "a.png")].
Proof.
  repeat (split; [reflexivity |]). discriminate.
Qed.

(** C10, amended. Only the first flagged image is compared with the
    canonical URL: when two or more images are flagged, the canonical URL
    equals the URL of a flagged image after the first flagged one and
    differs from the URL of the first flagged one, the list is rewritten,
    every flag cleared and a flagged canonical entry appended. *)
Theorem later_match_still_rewritten (product : ProductData) (d : DefaultImage.t)
  (before between rest : list Image) (first later : Image)
  (Hd : defaultImage product = Some d)
  (Himages : images product = before ++ first :: between ++ later :: rest)
  (Hbefore : forallb (fun i => negb (isDefault i)) before = true)
  (Hfirst : isDefault first = true)
  (Hlater : isDefault later = true)
  (Hmatch : url later = DefaultImage.url d)
  (Hother : url first <> DefaultImage.url d) :
  images (reconcileImages product) =
    map clearDefault (images product) ++ [canonicalEntry d] /\
  2 <= defaultCount (images product) /\
  defaultCount (images (reconcileImages product)) = 1.
Proof.
  assert (Htop : topLevelDefaultImg product = Some first).
  { unfold topLevelDefaultImg. rewrite Himages. now apply find_after_unflagged. }
  assert (Hdiff : urlDiffers (topLevelDefaultImg product) d = true).
  { rewrite Htop. simpl. apply negb_true_iff. now apply JsFacts.string_eqb_neq. }
  assert (Hrw : images (reconcileImages product) =
                map clearDefault (images product) ++ [canonicalEntry d]).
  { rewrite (reconcile_unfold_some product Hd), Hdiff. reflexivity. }
  split; [exact Hrw |]. split.
  - rewrite Himages. rewrite defaultCount_app.
    change (first :: between ++ later :: rest)
      with ([first] ++ between ++ [later] ++ rest).
    rewrite !defaultCount_app. unfold defaultCount at 2 4. simpl.
    rewrite Hfirst, Hlater. simpl. lia.
  - rewrite Hrw. apply defaultCount_rewritten.
Qed.

Lemma later_match_still_rewritten_witness :
  defaultImage Samples.secondMatches = Some (Samples.canonical "b.png") /\
  images Samples.secondMatches =
    [] ++ Samples.image "a.png" true :: [] ++ Samples.image "b.png" true :: [] /\
  url (Samples.image "b.png" true) = DefaultImage.url (Samples.canonical "b.png") /\
  url (Samples.image "a.png" true) <> DefaultImage.url (Samples.canonical "b.png") /\
  images (reconcileImages Samples.secondMatches) =
    map clearDefault (images Samples.secondMatches)
      ++ [canonicalEntry (Samples.canonical "b.png")] /\
  2 <= defaultCount (images Samples.secondMatches) /\
  defaultCount (images (reconcileImages Samples.secondMatches)) = 1.
Proof.
  split; [reflexivity |]. split; [reflexivity |]. split; [reflexivity |].
  split; [vm_compute; discriminate |].
  apply (@later_match_still_rewritten Samples.secondMatches (Samples.canonical "b.png")
           [] [] [] (Samples.image "a.png" true) (Samples.image "b.png" true));
    try reflexivity.
  vm_compute. discriminate.
Defined.

End ImageFacts.

(** ** The price block *)

Module PriceFacts.
Import ProductPage.

Section WithFormatter.

Variable format : number -> jsstring.

Lemma isWasNow_wasNow (base sale : Money) : isWasNow (wasNow format base sale) = true.
Proof. reflexivity. Qed.

Lemma isWasNow_plainPrice (p : Prices) : isWasNow (plainPrice format p) = false.
Proof. unfold plainPrice. now destruct (number_truthy (value (price p))). Qed.

Lemma isWasNow_msrp_slot (p : Prices) :
  isWasNow match retailPrice p with
           | Some retail => msrpLine format retail
           | None => Nothing
           end = false.
Proof. now destruct (retailPrice p). Qed.

Lemma isPlainPrice_msrp_slot (p : Prices) :
  isPlainPrice match retailPrice p with
               | Some retail => msrpLine format retail
               | None => Nothing
               end = false.
Proof. now destruct (retailPrice p). Qed.

(** The block when the range branch is not taken. *)
Lemma priceBlock_flat (product : ProductData) (p : Prices) :
  prices product = Some p ->
  showPriceRange product = false ->
  pieces (priceBlock format product) =
    [match retailPrice p with
     | Some retail => msrpLine format retail
     | None => Nothing
     end;
     match salePrice p, basePrice p with
     | Some sale, Some base => wasNow format base sale
     | _, _ => plainPrice format p
     end].
Proof.
  intros Hp Hflat. unfold priceBlock. rewrite Hp, Hflat. reflexivity.
Qed.

(** C3, amended. When the range branch is not taken, the Was/Now display
    is produced exactly when both [salePrice] and [basePrice] are present,
    whether or not a retail price is; the retail price decides only whether
    the MSRP line is there. *)
Theorem wasNow_iff_sale_and_base (product : ProductData) (p : Prices)
  (Hp : prices product = Some p)
  (Hflat : showPriceRange product = false) :
  (existsb isWasNow (pieces (priceBlock format product)) = true <->
     salePrice p <> None /\ basePrice p <> None) /\
  (existsb isMsrp (pieces (priceBlock format product)) = true <->
     retailPrice p <> None).
Proof.
  rewrite (priceBlock_flat product Hp Hflat). simpl.
  rewrite isWasNow_msrp_slot, !orb_false_r. simpl. split.
  - destruct (salePrice p) as [sale |], (basePrice p) as [base |];
      rewrite ?isWasNow_wasNow, ?isWasNow_plainPrice;
      split; try discriminate; try (intros [? ?]; congruence);
      intros _; split; discriminate.
  - assert (Hsecond : isMsrp match salePrice p, basePrice p with
                             | Some sale, Some base => wasNow format base sale
                             | _, _ => plainPrice format p
                             end = false).
    { unfold plainPrice.
      destruct (salePrice p), (basePrice p), (number_truthy (value (price p)));
        reflexivity. }
    rewrite Hsecond, orb_false_r.
    destruct (retailPrice p) as [retail |]; split.
    + discriminate.
    + reflexivity.
    + discriminate.
    + intros H. now contradiction H.
Qed.

(** When the plain price is the display and its value is truthy, it is
    shown formatted and not struck through. *)
Lemma plainPrice_truthy (product : ProductData) (p : Prices) :
  prices product = Some p ->
  showPriceRange product = false ->
  salePrice p = None \/ basePrice p = None ->
  number_truthy (value (price p)) = true ->
  nth_error (pieces (priceBlock format product)) 1 =
    Some (Fragment [Text (format (value (price p)))]).
Proof.
  intros Hp Hflat Hnot Htruthy.
  rewrite (priceBlock_flat product Hp Hflat). simpl. unfold plainPrice.
  rewrite Htruthy.
  destruct Hnot as [H | H]; rewrite H; [| destruct (salePrice p)]; reflexivity.
Qed.

(** C4 at a price of zero. The block holds the bare number [0], which is
    rendered as the text "0": the formatted price is not what is shown. *)
Theorem zero_price_not_formatted :
  showPriceRange Samples.freeProduct = false /\
  priceBlock format Samples.freeProduct =
    Elem "div" "my-6" [Fragment [Nothing; Num 0%float]] /\
  existsb isPlainPrice (pieces (priceBlock format Samples.freeProduct)) = false /\
  ~ In (Fragment [Text (format 0%float)]) (pieces (priceBlock format Samples.freeProduct)).
Proof.
  repeat (split; [reflexivity |]).
  simpl. intros [H | [H | []]]; discriminate.
Qed.

End WithFormatter.

(** C3, as stated, fails: without a retail price, and the range branch not
    taken, the Was/Now display is produced for a sale, and the plain price
    is shown when there is no sale. *)
Lemma wasNow_without_retail :
  retailPrice Samples.saleNoRetail = None /\
  showPriceRange Samples.saleProduct = false /\
  existsb isWasNow (pieces (priceBlock Samples.dollars Samples.saleProduct)) = true /\
  retailPrice (Samples.flatPrices 25%float) = None /\
  showPriceRange Samples.plainProduct = false /\
  existsb isPlainPrice (pieces (priceBlock Samples.dollars Samples.plainProduct)) = true.
Proof. repeat split. Qed.

Lemma wasNow_iff_sale_and_base_witness :
  prices Samples.saleProduct = Some Samples.saleNoRetail /\
  showPriceRange Samples.saleProduct = false /\
  (existsb isWasNow (pieces (priceBlock Samples.dollars Samples.saleProduct)) = true <->
     salePrice Samples.saleNoRetail <> None /\ basePrice Samples.saleNoRetail <> None) /\
  (existsb isMsrp (pieces (priceBlock Samples.dollars Samples.saleProduct)) = true <->
     retailPrice Samples.saleNoRetail <> None).
Proof.
  split; [reflexivity |]. split; [reflexivity |].
  apply (@wasNow_iff_sale_and_base Samples.dollars Samples.saleProduct Samples.saleNoRetail);
    reflexivity.
Defined.

End PriceFacts.

(** ** The selection of option values *)

Module SelectionFacts.
Import ProductPage.

Lemma keys_omit (k : jsstring) (sp : SearchParams) :
  keys (omit k sp) = filter (fun k' => negb (string_eqb k' k)) (keys sp).
Proof.
  unfold keys, omit.
  induction sp as [| [k' v] rest IH]; simpl; [reflexivity |].
  destruct (string_eqb k' k); simpl; now rewrite IH.
Qed.

(** The key [slug] would be dropped by the filter anyway. *)
Lemma slug_not_parsed (sp : SearchParams) :
  bothParsed (toOptionValueId sp (lit "slug")) = false.
Proof. reflexivity. Qed.

(** The selection is the list of the keys both of whose components are
    numbers, in the order of the keys. *)
Lemma optionValueIds_by_key (sp : SearchParams) :
  optionValueIds sp =
    map (toOptionValueId sp)
      (filter (fun k => bothParsed (toOptionValueId sp k)) (keys sp)).
Proof.
  unfold optionValueIds. rewrite keys_omit.
  generalize (toOptionValueId sp) (slug_not_parsed sp). intros f Hslug.
  induction (keys sp) as [| k ks IH]; simpl; [reflexivity |].
  destruct (string_eqb k (lit "slug")) eqn:Hk; simpl.
  - apply JsFacts.string_eqb_eq in Hk. subst k. rewrite Hslug. exact IH.
  - destruct (bothParsed (f k)); simpl; now rewrite IH.
Qed.

Lemma bothParsed_iff (o : OptionValueId) :
  bothParsed o = true <->
  isNaN (optionEntityId o) = false /\ isNaN (valueEntityId o) = false.
Proof.
  unfold bothParsed. rewrite andb_true_iff, !negb_true_iff. reflexivity.
Qed.

(** No entry of the selection has a [NaN] component. *)
Lemma optionValueIds_parsed (sp : SearchParams) (o : OptionValueId) :
  In o (optionValueIds sp) -> bothParsed o = true.
Proof.
  unfold optionValueIds. intros H. now apply filter_In in H.
Qed.

(** C5, as stated, fails: a key that is a number and no integer ([.5]) is
    kept, and so is a value that is no integer ([Infinity]). *)
Lemma fraction_key_kept :
  isInteger (Number (PString (lit ".5"))) = false /\
  isInteger (Number (get Samples.fractionQuery (lit "7"))) = false /\
  optionValueIds Samples.fractionQuery =
    [{| optionEntityId := 0.5%float; valueEntityId := 2%float |};
     {| optionEntityId := 7%float; valueEntityId := PrimFloat.infinity |}] /\
  In (toOptionValueId Samples.fractionQuery (lit ".5")) (optionValueIds Samples.fractionQuery) /\
  In (toOptionValueId Samples.fractionQuery (lit "7")) (optionValueIds Samples.fractionQuery).
Proof.
  repeat (split; [reflexivity |]).
  split; [left | right; left]; reflexivity.
Qed.

(** C5, amended. The entry of a key of the query is in the selection passed
    to the product fetch exactly when neither [Number(key)] nor
    [Number(value)] is [NaN]; the other entries are left out, and computing
    the selection raises no error (it is a total function). *)
Theorem selected_iff_both_numbers (sp : SearchParams) (k : jsstring)
  (Hk : In k (keys sp)) :
  In (toOptionValueId sp k) (optionValueIds sp) <->
  isNaN (Number (PString k)) = false /\ isNaN (Number (get sp k)) = false.
Proof.
  split.
  - intros H. apply optionValueIds_parsed in H. now apply bothParsed_iff in H.
  - intros H. rewrite optionValueIds_by_key. apply in_map, filter_In.
    split; [exact Hk |]. now apply bothParsed_iff.
Qed.

Lemma selected_iff_both_numbers_witness :
  In (lit "134") (keys Samples.mixedQuery) /\
  (In (toOptionValueId Samples.mixedQuery (lit "134")) (optionValueIds Samples.mixedQuery) <->
   isNaN (Number (PString (lit "134"))) = false /\
   isNaN (Number (get Samples.mixedQuery (lit "134"))) = false).
Proof.
  split; [left; reflexivity |].
  apply (@selected_iff_both_numbers Samples.mixedQuery (lit "134")).
  left; reflexivity.
Defined.

(** C9. A key that parses as an integer and whose value is the empty
    string is kept, with [valueEntityId = 0]: [Number('')] is [0], not
    [NaN]. *)
Theorem empty_value_kept (sp : SearchParams) (k : jsstring)
  (Hk : In k (keys sp))
  (Hempty : get sp k = PString [])
  (Hkey : isInteger (Number (PString k)) = true) :
  In {| optionEntityId := Number (PString k); valueEntityId := 0%float |}
     (optionValueIds sp) /\
  Number (PString []) = 0%float /\
  isNaN (Number (PString [])) = false.
Proof.
  split; [| split; reflexivity].
  assert (H : In (toOptionValueId sp k) (optionValueIds sp)).
  { rewrite optionValueIds_by_key. apply in_map, filter_In.
    split; [exact Hk |]. apply bothParsed_iff. unfold toOptionValueId. simpl.
    rewrite Hempty. split; [| reflexivity].
    now apply JsFacts.isInteger_not_NaN. }
  unfold toOptionValueId in H. rewrite Hempty in H. exact H.
Qed.

Lemma empty_value_kept_witness :
  In (lit "134") (keys Samples.emptyValueQuery) /\
  get Samples.emptyValueQuery (lit "134") = PString [] /\
  isInteger (Number (PString (lit "134"))) = true /\
  optionValueIds Samples.emptyValueQuery =
    [{| optionEntityId := 134%float; valueEntityId := 0%float |}] /\
  In {| optionEntityId := Number (PString (lit "134")); valueEntityId := 0%float |}
     (optionValueIds Samples.emptyValueQuery).
Proof.
  split; [left; reflexivity |].
  split; [reflexivity |]. split; [reflexivity |]. split; [reflexivity |].
  apply (@empty_value_kept Samples.emptyValueQuery (lit "134"));
    [left; reflexivity | reflexivity | reflexivity].
Defined.

End SelectionFacts.

(** ** Absent products and pages *)

Module NotFoundFacts.

Section Routes.

Variable getProduct :
  number -> option (list ProductPage.OptionValueId) -> option ProductPage.ProductData.
Variable ReCaptchaSettings : Type.
Variable getWebPage : jsstring -> option ContentPage.WebPageData.
Variable getReCaptchaSettings : ReCaptchaSettings.

Lemma product_render_absent (params : ProductPage.ProductPageParams)
  (searchParams : ProductPage.SearchParams) :
  getProduct (ProductPage.Number (ProductPage.PString (ProductPage.slug params)))
             (Some (ProductPage.optionValueIds searchParams)) = None ->
  ProductPage.Product getProduct params searchParams = NotFound.
Proof. intros H. unfold ProductPage.Product. now rewrite H. Qed.

Lemma product_metadata_absent (params : ProductPage.ProductPageParams) :
  getProduct (ProductPage.Number (ProductPage.PString (ProductPage.slug params))) None = None ->
  ProductPage.generateMetadata getProduct params = Returned emptyMetadata.
Proof. intros H. unfold ProductPage.generateMetadata. now rewrite H. Qed.

Lemma page_metadata_absent (params : ContentPage.WebPageParams) :
  getWebPage (ContentPage.pathOf params) = None ->
  ContentPage.generateMetadata getWebPage params = NotFound.
Proof. intros H. unfold ContentPage.generateMetadata. now rewrite H. Qed.

Lemma page_render_absent (params : ContentPage.WebPageParams) :
  getWebPage (ContentPage.pathOf params) = None ->
  ContentPage.WebPage getWebPage getReCaptchaSettings params = NotFound.
Proof. intros H. unfold ContentPage.WebPage. now rewrite H. Qed.

(** C1, amended. For a path with no page, the metadata step and the render
    step of the content page both end with not-found. For a product
    identifier with no product, the render step of the product page ends
    with not-found, and its metadata step returns the empty metadata
    object. *)
Theorem absent_entity_steps
  (pageParams : ContentPage.WebPageParams)
  (productParams : ProductPage.ProductPageParams)
  (searchParams : ProductPage.SearchParams)
  (Hpage : getWebPage (ContentPage.pathOf pageParams) = None)
  (Hproduct : forall options,
      getProduct
        (ProductPage.Number (ProductPage.PString (ProductPage.slug productParams)))
        options = None) :
  ContentPage.generateMetadata getWebPage pageParams = NotFound /\
  ContentPage.WebPage getWebPage getReCaptchaSettings pageParams = NotFound /\
  ProductPage.Product getProduct productParams searchParams = NotFound /\
  ProductPage.generateMetadata getProduct productParams = Returned emptyMetadata.
Proof.
  repeat split.
  - now apply page_metadata_absent.
  - now apply page_render_absent.
  - apply product_render_absent, Hproduct.
  - apply product_metadata_absent, Hproduct.
Qed.

End Routes.

(** C1, as stated, fails for the metadata step of the product page: for a
    product the catalog does not have it returns the empty metadata object,
    which is no not-found result. *)
Lemma product_metadata_returns_empty :
  (forall options,
      Samples.emptyCatalog
        (ProductPage.Number (ProductPage.PString (ProductPage.slug Samples.missingProduct)))
        options = None) /\
  ProductPage.generateMetadata Samples.emptyCatalog Samples.missingProduct
    = Returned emptyMetadata /\
  ProductPage.generateMetadata Samples.emptyCatalog Samples.missingProduct <> NotFound.
Proof. repeat split. discriminate. Qed.

Lemma absent_entity_steps_witness :
  Samples.emptySite (ContentPage.pathOf Samples.aboutPage) = None /\
  (forall options,
      Samples.emptyCatalog
        (ProductPage.Number (ProductPage.PString (ProductPage.slug Samples.missingProduct)))
        options = None) /\
  ContentPage.generateMetadata Samples.emptySite Samples.aboutPage = NotFound /\
  ContentPage.WebPage Samples.emptySite tt Samples.aboutPage = NotFound /\
  ProductPage.Product Samples.emptyCatalog Samples.missingProduct Samples.mixedQuery
    = NotFound /\
  ProductPage.generateMetadata Samples.emptyCatalog Samples.missingProduct
    = Returned emptyMetadata.
Proof.
  split; [reflexivity |]. split; [reflexivity |].
  apply (@absent_entity_steps Samples.emptyCatalog unit Samples.emptySite tt
           Samples.aboutPage Samples.missingProduct Samples.mixedQuery);
    reflexivity.
Defined.

End NotFoundFacts.

(** ** What [Number] reads *)

Module ParsingFacts.
Import Chars.

Lemma In_trimStart (c : code_unit) (s : jsstring) :
  isWhiteSpace c = false -> In c s -> In c (trimStart s).
Proof.
  intros Hc. induction s as [| x rest IH]; simpl; [tauto |].
  intros [-> | Hin].
  - rewrite Hc. now left.
  - destruct (isWhiteSpace x); [now apply IH | now right].
Qed.

Lemma In_trim (c : code_unit) (s : jsstring) :
  isWhiteSpace c = false -> In c s -> In c (trim s).
Proof.
  intros Hc Hin. unfold trim.
  apply -> in_rev. apply In_trimStart; [exact Hc |].
  apply -> in_rev. now apply In_trimStart.
Qed.

Lemma digit_value_hex (radix : N) (c : code_unit) (d : N) :
  digit_value radix c = Some d -> isHexDigit c = true.
Proof.
  unfold digit_value, isHexDigit.
  destruct ((48 <=? c) && (c <=? 57))%N; [reflexivity |].
  destruct ((97 <=? c) && (c <=? 102))%N; [reflexivity |].
  destruct ((65 <=? c) && (c <=? 70))%N; [reflexivity | discriminate].
Qed.

Lemma isHexDigit_numeric (c : code_unit) : isHexDigit c = true -> numericChar c = true.
Proof.
  intros H. unfold numericChar. rewrite H. now rewrite orb_true_r.
Qed.

(** What [span_digits] consumes are digits. *)
Lemma span_digits_chars (radix : N) (s : jsstring) (ds : list N) (rest : jsstring) :
  span_digits radix s = (ds, rest) ->
  forall c, In c s -> isHexDigit c = true \/ In c rest.
Proof.
  revert ds rest. induction s as [| x s IH]; intros ds rest Hspan c Hin.
  - destruct Hin.
  - simpl in Hspan.
    destruct (digit_value radix x) as [d |] eqn:Hx.
    + destruct (span_digits radix s) as [ds' r'] eqn:Hs.
      inversion Hspan; subst. destruct Hin as [-> | Hin].
      * left. eapply digit_value_hex; eauto.
      * eapply IH; eauto.
    + inversion Hspan; subst. now right.
Qed.

Lemma span_digits_all (radix : N) (s : jsstring) (ds : list N) :
  span_digits radix s = (ds, []) ->
  forall c, In c s -> numericChar c = true.
Proof.
  intros Hspan c Hin.
  destruct (@span_digits_chars _ _ _ _ Hspan c Hin) as [H | []].
  now apply isHexDigit_numeric.
Qed.

Ltac is_char H :=
  apply N.eqb_eq in H; subst; reflexivity.

Lemma parse_exponent_chars (s : jsstring) (e : Z) :
  parse_exponent s = Some e -> forall c, In c s -> numericChar c = true.
Proof.
  unfold parse_exponent. intros H c Hin.
  destruct s as [| x rest]; [destruct Hin |].
  destruct (x =? cu "-")%N eqn:Hminus.
  - destruct (span_digits 10 rest) as [[| d ds] [| y r]] eqn:Hs; try discriminate.
    destruct Hin as [<- | Hin]; [is_char Hminus |].
    eapply span_digits_all; eauto.
  - destruct (x =? cu "+")%N eqn:Hplus.
    + destruct (span_digits 10 rest) as [[| d ds] [| y r]] eqn:Hs; try discriminate.
      destruct Hin as [<- | Hin]; [is_char Hplus |].
      eapply span_digits_all; eauto.
    + destruct (span_digits 10 (x :: rest)) as [[| d ds] [| y r]] eqn:Hs; try discriminate.
      eapply span_digits_all; eauto.
Qed.

Lemma parse_unsigned_decimal_chars (s : jsstring) (d : decimal) :
  parse_unsigned_decimal s = Some d -> forall c, In c s -> numericChar c = true.
Proof.
  unfold parse_unsigned_decimal. intros H c Hin.
  destruct (span_digits 10 s) as [ip r1] eqn:Hip.
  destruct (@span_digits_chars _ _ _ _ Hip c Hin) as [Hd | Hin1];
    [now apply isHexDigit_numeric |].
  assert (Htail : forall fp r2,
             (match r1 with
              | x :: rest => if (x =? cu ".")%N then span_digits 10 rest else ([], r1)
              | [] => ([], r1)
              end) = (fp, r2) ->
             numericChar c = true \/ In c r2).
  { intros fp r2 Hfp. destruct r1 as [| x rest]; [destruct Hin1 |].
    destruct (x =? cu ".")%N eqn:Hdot.
    - destruct Hin1 as [<- | Hin1]; [left; is_char Hdot |].
      destruct (@span_digits_chars _ _ _ _ Hfp c Hin1) as [Hd | Hr];
        [left; now apply isHexDigit_numeric | now right].
    - inversion Hfp; subst. now right. }
  destruct (match r1 with
            | x :: rest => if (x =? cu ".")%N then span_digits 10 rest else ([], r1)
            | [] => ([], r1)
            end) as [fp r2] eqn:Hfp.
  destruct (Htail fp r2 eq_refl) as [Hok | Hin2]; [exact Hok |].
  destruct r2 as [| y rest]; [destruct Hin2 |].
  assert (Hexp : (if ((y =? cu "e") || (y =? cu "E"))%N
                  then match parse_exponent rest with
                       | Some e =>
                           Some {| mantissa := digits_value 10 (ip ++ fp);
                                   exponent := (e + - Z.of_nat (List.length fp))%Z |}
                       | None => None
                       end
                  else None) = Some d).
  { destruct ip, fp; try discriminate; exact H. }
  destruct ((y =? cu "e") || (y =? cu "E"))%N eqn:He; [| discriminate].
  destruct (parse_exponent rest) as [e |] eqn:Hpe; [| discriminate].
  destruct Hin2 as [<- | Hin2].
  - apply orb_true_iff in He as [He | He]; is_char He.
  - eapply parse_exponent_chars; eauto.
Qed.

Lemma parse_decimal_literal_chars (s : jsstring) (x : number) :
  parse_decimal_literal s = Some x -> forall c, In c s -> numericChar c = true.
Proof.
  unfold parse_decimal_literal. intros H c Hin.
  assert (Hbody : forall body,
             (if string_eqb body (lit "Infinity") then True
              else parse_unsigned_decimal body <> None) ->
             In c body -> numericChar c = true).
  { intros body Hb Hc. destruct (string_eqb body (lit "Infinity")) eqn:Hinf.
    - apply JsFacts.string_eqb_eq in Hinf. subst body.
      simpl in Hc. repeat (destruct Hc as [<- | Hc]; [reflexivity |]). destruct Hc.
    - destruct (parse_unsigned_decimal body) as [d |] eqn:Hd; [| congruence].
      eapply parse_unsigned_decimal_chars; eauto. }
  destruct s as [| y rest]; [destruct Hin |].
  destruct (y =? cu "-")%N eqn:Hminus.
  - destruct Hin as [<- | Hin]; [is_char Hminus |].
    apply Hbody with (body := rest); [| exact Hin].
    destruct (string_eqb rest (lit "Infinity")); [exact I |].
    destruct (parse_unsigned_decimal rest); [discriminate | discriminate].
  - destruct (y =? cu "+")%N eqn:Hplus.
    + destruct Hin as [<- | Hin]; [is_char Hplus |].
      apply Hbody with (body := rest); [| exact Hin].
      destruct (string_eqb rest (lit "Infinity")); [exact I |].
      destruct (parse_unsigned_decimal rest); [discriminate | discriminate].
    + apply Hbody with (body := y :: rest); [| exact Hin].
      destruct (string_eqb (y :: rest) (lit "Infinity")); [exact I |].
      destruct (parse_unsigned_decimal (y :: rest)); [discriminate | discriminate].
Qed.

Lemma parse_non_decimal_chars (s : jsstring) (x : number) :
  parse_non_decimal s = Some x -> forall c, In c s -> numericChar c = true.
Proof.
  unfold parse_non_decimal. intros H c Hin.
  destruct s as [| z [| p body]]; try discriminate.
  destruct (z =? cu "0")%N eqn:Hz; [| discriminate].
  assert (Hp : numericChar p = true /\
               exists r ds, span_digits r body = (ds, [])).
  { destruct ((p =? cu "x") || (p =? cu "X"))%N eqn:Hx.
    - split; [apply orb_true_iff in Hx as [Hx | Hx]; is_char Hx |].
      destruct (span_digits 16 body) as [[| d ds] [| y r]] eqn:Hs; try discriminate; eauto.
    - destruct ((p =? cu "o") || (p =? cu "O"))%N eqn:Ho.
      + split; [apply orb_true_iff in Ho as [Ho | Ho]; is_char Ho |].
        destruct (span_digits 8 body) as [[| d ds] [| y r]] eqn:Hs; try discriminate; eauto.
      + destruct ((p =? cu "b") || (p =? cu "B"))%N eqn:Hb; [| discriminate].
        split; [apply orb_true_iff in Hb as [Hb | Hb]; is_char Hb |].
        destruct (span_digits 2 body) as [[| d ds] [| y r]] eqn:Hs; try discriminate; eauto. }
  destruct Hp as [Hp (r & ds & Hs)].
  destruct Hin as [<- | [<- | Hin]].
  - is_char Hz.
  - exact Hp.
  - eapply span_digits_all; eauto.
Qed.

(** A string holding a code unit that no numeric string holds is [NaN]. *)
Theorem foreign_character_is_NaN (s : jsstring) (c : code_unit)
  (Hin : In c s)
  (Hforeign : numericChar c = false) :
  isNaN (StringToNumber s) = true.
Proof.
  assert (Hws : isWhiteSpace c = false).
  { unfold numericChar in Hforeign.
    destruct (isWhiteSpace c); [discriminate | reflexivity]. }
  pose proof (@In_trim _ _ Hws Hin) as Ht.
  unfold StringToNumber.
  destruct (trim s) as [| y t]; [destruct Ht |].
  destruct (parse_non_decimal (y :: t)) as [x |] eqn:Hnd.
  - rewrite (@parse_non_decimal_chars _ _ Hnd c Ht) in Hforeign. discriminate.
  - destruct (parse_decimal_literal (y :: t)) as [x |] eqn:Hdl.
    + rewrite (@parse_decimal_literal_chars _ _ Hdl c Ht) in Hforeign. discriminate.
    + reflexivity.
Qed.

Lemma foreign_character_is_NaN_witness :
  In (cu "p") (lit "12px") /\
  numericChar (cu "p") = false /\
  isNaN (StringToNumber (lit "12px")) = true.
Proof.
  split; [right; right; left; reflexivity |].
  split; [reflexivity |].
  apply (@foreign_character_is_NaN (lit "12px") (cu "p"));
    [right; right; left; reflexivity | reflexivity].
Defined.

(** ** White space *)

Lemma trimStart_all_space (s : jsstring) :
  forallb isWhiteSpace s = true -> trimStart s = [].
Proof.
  induction s as [| x rest IH]; simpl; [reflexivity |].
  intros H. apply andb_prop in H as [Hx Hrest]. rewrite Hx. now apply IH.
Qed.

Lemma trimStart_prefix (pre s : jsstring) :
  forallb isWhiteSpace pre = true -> trimStart (pre ++ s) = trimStart s.
Proof.
  induction pre as [| x rest IH]; simpl; [reflexivity |].
  intros H. apply andb_prop in H as [Hx Hrest]. rewrite Hx. now apply IH.
Qed.

Lemma trimStart_snoc (s : jsstring) (w : code_unit) :
  isWhiteSpace w = true ->
  trimStart (s ++ [w]) =
    match trimStart s with
    | [] => []
    | t => t ++ [w]
    end.
Proof.
  intros Hw. induction s as [| x rest IH]; simpl.
  - now rewrite Hw.
  - destruct (isWhiteSpace x); [exact IH | reflexivity].
Qed.

Lemma trim_snoc (s : jsstring) (w : code_unit) :
  isWhiteSpace w = true -> trim (s ++ [w]) = trim s.
Proof.
  intros Hw. unfold trim. rewrite (@trimStart_snoc s w Hw).
  destruct (trimStart s) as [| y t] eqn:Ht; [reflexivity |].
  rewrite rev_app_distr. simpl rev at 2. simpl app.
  cbn [trimStart]. now rewrite Hw.
Qed.

Lemma trim_suffix (post s : jsstring) :
  forallb isWhiteSpace post = true -> trim (s ++ post) = trim s.
Proof.
  revert s. induction post as [| w rest IH]; intros s H.
  - now rewrite app_nil_r.
  - simpl in H. apply andb_prop in H as [Hw Hrest].
    change (w :: rest) with ([w] ++ rest). rewrite app_assoc.
    rewrite (IH (s ++ [w])) by exact Hrest. now apply trim_snoc.
Qed.

(** White space around a string does not change what [Number] reads. *)
Theorem surrounding_space_ignored (pre s post : jsstring)
  (Hpre : forallb isWhiteSpace pre = true)
  (Hpost : forallb isWhiteSpace post = true) :
  StringToNumber (pre ++ s ++ post) = StringToNumber s.
Proof.
  unfold StringToNumber.
  assert (Ht : trim (pre ++ s ++ post) = trim s).
  { transitivity (trim (s ++ post)).
    - unfold trim. now rewrite (@trimStart_prefix pre _ Hpre).
    - now apply trim_suffix. }
  now rewrite Ht.
Qed.

Lemma surrounding_space_ignored_witness :
  forallb isWhiteSpace (lit " ") = true /\
  forallb isWhiteSpace [9; 160]%N = true /\
  StringToNumber (lit " " ++ lit "139" ++ [9; 160]%N) = StringToNumber (lit "139").
Proof.
  split; [reflexivity |]. split; [reflexivity |].
  apply (@surrounding_space_ignored (lit " ") (lit "139") [9; 160]%N); reflexivity.
Defined.

(** A string of white space only reads as [+0]. *)
Theorem blank_is_zero (s : jsstring)
  (Hblank : forallb isWhiteSpace s = true) :
  StringToNumber s = PrimFloat.zero /\ isNaN (StringToNumber s) = false.
Proof.
  assert (H : StringToNumber s = PrimFloat.zero).
  { unfold StringToNumber, trim. now rewrite (@trimStart_all_space s Hblank). }
  rewrite H. split; reflexivity.
Qed.

Lemma blank_is_zero_witness :
  forallb isWhiteSpace (lit "   ") = true /\
  StringToNumber (lit "   ") = PrimFloat.zero /\
  isNaN (StringToNumber (lit "   ")) = false.
Proof.
  split; [reflexivity |].
  apply (@blank_is_zero (lit "   ")). reflexivity.
Defined.

End ParsingFacts.

(** ** More on the selection of option values *)

Module SelectionMore.
Import ProductPage SelectionFacts.

(** A comma is no numeric character, so a joined array of two or more
    items is [NaN]. *)
Lemma array_of_several_is_NaN (a b : jsstring) (rest : list jsstring) :
  isNaN (Number (PArray (a :: b :: rest))) = true.
Proof.
  simpl Number.
  apply ParsingFacts.foreign_character_is_NaN with (c := cu ","); [| reflexivity].
  change (join (lit ",") (a :: b :: rest))
    with (a ++ lit "," ++ join (lit ",") (b :: rest)).
  apply in_or_app. right. now left.
Qed.

(** X12. A parameter given several times (an array of two or more values) never
    enters the selection, whatever its key and values. *)
Theorem repeated_parameter_dropped (sp : SearchParams) (k a b : jsstring)
  (rest : list jsstring)
  (Hget : get sp k = PArray (a :: b :: rest)) :
  ~ In (toOptionValueId sp k) (optionValueIds sp).
Proof.
  intros Hin. apply optionValueIds_parsed in Hin.
  apply bothParsed_iff in Hin as [_ Hvalue].
  unfold toOptionValueId in Hvalue. simpl in Hvalue.
  rewrite Hget, array_of_several_is_NaN in Hvalue. discriminate.
Qed.

Lemma repeated_parameter_dropped_witness :
  get MoreSamples.repeatedQuery (lit "134") = PArray [lit "139"; lit "140"] /\
  ~ In (toOptionValueId MoreSamples.repeatedQuery (lit "134"))
       (optionValueIds MoreSamples.repeatedQuery).
Proof.
  split; [reflexivity |].
  apply (@repeated_parameter_dropped MoreSamples.repeatedQuery (lit "134")
           (lit "139") (lit "140") []).
  reflexivity.
Defined.

(** X13. A query none of whose keys has two numeric components gives the empty
    selection: the product is fetched as the base product. *)
Theorem garbage_query_selects_nothing (sp : SearchParams)
  (Hgarbage : forall k, In k (keys sp) ->
      isNaN (Number (PString k)) = true \/ isNaN (Number (get sp k)) = true) :
  optionValueIds sp = [].
Proof.
  rewrite optionValueIds_by_key.
  assert (H : forall ks, (forall k, In k ks -> In k (keys sp)) ->
              filter (fun k => bothParsed (toOptionValueId sp k)) ks = []).
  { induction ks as [| k ks IH]; intros Hsub; [reflexivity |].
    simpl. destruct (bothParsed (toOptionValueId sp k)) eqn:Hk.
    - apply bothParsed_iff in Hk as [Hk1 Hk2].
      change (isNaN (Number (PString k)) = false) in Hk1.
      change (isNaN (Number (get sp k)) = false) in Hk2.
      destruct (Hgarbage k (Hsub k (or_introl eq_refl))); congruence.
    - apply IH. intros k' Hk'. apply Hsub. now right. }
  rewrite H; [reflexivity | auto].
Qed.

Lemma garbage_query_selects_nothing_witness :
  (forall k, In k (keys MoreSamples.garbageQuery) ->
      isNaN (Number (PString k)) = true \/
      isNaN (Number (get MoreSamples.garbageQuery k)) = true) /\
  optionValueIds MoreSamples.garbageQuery = [].
Proof.
  assert (H : forall k, In k (keys MoreSamples.garbageQuery) ->
      isNaN (Number (PString k)) = true \/
      isNaN (Number (get MoreSamples.garbageQuery k)) = true).
  { intros k [<- | [<- | []]]; [left | right]; reflexivity. }
  split; [exact H |].
  apply (@garbage_query_selects_nothing MoreSamples.garbageQuery H).
Defined.

(** The entry of a key both of whose components are numbers is selected. *)
Lemma selected_when_parsed (sp : SearchParams) (k : jsstring) :
  In k (keys sp) ->
  isNaN (Number (PString k)) = false /\ isNaN (Number (get sp k)) = false ->
  In (toOptionValueId sp k) (optionValueIds sp).
Proof.
  intros Hk H. rewrite optionValueIds_by_key. apply in_map, filter_In.
  split; [exact Hk |]. now apply bothParsed_iff.
Qed.






(** X11. A key, or a string value, holding a code unit that no numeric string
    holds (a letter of a word, a comma, a unit such as [px]) never enters
    the selection. *)
Theorem foreign_character_dropped (sp : SearchParams) (k : jsstring) (c : code_unit)
  (Hforeign : Chars.numericChar c = false)
  (Hin : In c k \/ exists v, get sp k = PString v /\ In c v) :
  ~ In (toOptionValueId sp k) (optionValueIds sp).
Proof.
  intros Hsel. apply optionValueIds_parsed in Hsel.
  apply bothParsed_iff in Hsel as [Hkey Hvalue].
  change (isNaN (Number (PString k)) = false) in Hkey.
  change (isNaN (Number (get sp k)) = false) in Hvalue.
  destruct Hin as [Hin | (v & Hget & Hin)].
  - simpl in Hkey.
    rewrite (@ParsingFacts.foreign_character_is_NaN k c Hin Hforeign) in Hkey.
    discriminate.
  - rewrite Hget in Hvalue. simpl in Hvalue.
    rewrite (@ParsingFacts.foreign_character_is_NaN v c Hin Hforeign) in Hvalue.
    discriminate.
Qed.

Lemma foreign_character_dropped_witness :
  Chars.numericChar (cu "r") = false /\
  (In (cu "r") (lit "color") \/
   exists v, get Samples.mixedQuery (lit "color") = PString v /\ In (cu "r") v) /\
  ~ In (toOptionValueId Samples.mixedQuery (lit "color"))
       (optionValueIds Samples.mixedQuery).
Proof.
  assert (Hin : In (cu "r") (lit "color")).
  { do 4 right. left. reflexivity. }
  split; [reflexivity |]. split; [left; exact Hin |].
  apply (@foreign_character_dropped Samples.mixedQuery (lit "color") (cu "r"));
    [reflexivity | left; exact Hin].
Defined.

Lemma filter_map_commute (f : jsstring -> OptionValueId) (ks : list jsstring) :
  filter bothParsed (map f ks) = map f (filter (fun k => bothParsed (f k)) ks).
Proof.
  induction ks as [| k ks IH]; simpl; [reflexivity |].
  destruct (bothParsed (f k)); simpl; now rewrite IH.
Qed.

(** X15. Taking [slug] out of the query before building the selection changes
    nothing: the selection is what filtering the entries of all the keys
    gives, in the order of the keys, so it has no more entries than the
    query has keys. *)
Theorem slug_removal_redundant (sp : SearchParams) :
  optionValueIds sp = filter bothParsed (map (toOptionValueId sp) (keys sp)) /\
  List.length (optionValueIds sp) <= List.length sp.
Proof.
  assert (H : optionValueIds sp = filter bothParsed (map (toOptionValueId sp) (keys sp))).
  { rewrite optionValueIds_by_key. symmetry. apply filter_map_commute. }
  split; [exact H |].
  rewrite H. etransitivity; [apply filter_length_le |].
  unfold keys. now rewrite !length_map.
Qed.

(** X17. A key that is a number and whose value is a string of white space
    only is kept, with [valueEntityId = 0]. *)
Theorem blank_value_kept (sp : SearchParams) (k v : jsstring)
  (Hk : In k (keys sp))
  (Hget : get sp k = PString v)
  (Hblank : forallb isWhiteSpace v = true)
  (Hkey : isNaN (Number (PString k)) = false) :
  In {| optionEntityId := Number (PString k); valueEntityId := PrimFloat.zero |}
     (optionValueIds sp).
Proof.
  destruct (ParsingFacts.blank_is_zero v Hblank) as [Hzero Hnum].
  assert (H : In (toOptionValueId sp k) (optionValueIds sp)).
  { apply selected_when_parsed; [exact Hk |].
    split; [exact Hkey |]. rewrite Hget. exact Hnum. }
  unfold toOptionValueId in H. rewrite Hget in H. simpl Number in H at 2.
  now rewrite Hzero in H.
Qed.

Lemma blank_value_kept_witness :
  In (lit "134") (keys [(lit "134", PString (lit "  "))]) /\
  get [(lit "134", PString (lit "  "))] (lit "134") = PString (lit "  ") /\
  forallb isWhiteSpace (lit "  ") = true /\
  isNaN (Number (PString (lit "134"))) = false /\
  In {| optionEntityId := Number (PString (lit "134")); valueEntityId := PrimFloat.zero |}
     (optionValueIds [(lit "134", PString (lit "  "))]).
Proof.
  split; [left; reflexivity |]. split; [reflexivity |].
  split; [reflexivity |]. split; [reflexivity |].
  apply (@blank_value_kept [(lit "134", PString (lit "  "))] (lit "134") (lit "  "));
    [left; reflexivity | reflexivity | reflexivity | reflexivity].
Defined.

Section WithCatalog.

Variable getProduct : number -> option (list OptionValueId) -> option ProductData.

(** X16. White space around the slug does not change the product: both steps
    give what they give for the bare slug. *)
Theorem padded_slug_same_product (params : ProductPageParams) (pre post : jsstring)
  (searchParams : SearchParams)
  (Hpre : forallb isWhiteSpace pre = true)
  (Hpost : forallb isWhiteSpace post = true) :
  generateMetadata getProduct {| slug := pre ++ slug params ++ post |}
    = generateMetadata getProduct params /\
  Product getProduct {| slug := pre ++ slug params ++ post |} searchParams
    = Product getProduct params searchParams.
Proof.
  unfold generateMetadata, Product. cbn [slug Number].
  now rewrite (ParsingFacts.surrounding_space_ignored pre (slug params) post Hpre Hpost).
Qed.

End WithCatalog.

Lemma padded_slug_same_product_witness :
  forallb isWhiteSpace (lit " ") = true /\
  forallb isWhiteSpace [9; 160]%N = true /\
  generateMetadata MoreSamples.oneProduct
    {| slug := lit " " ++ slug Samples.missingProduct ++ [9; 160]%N |}
    = generateMetadata MoreSamples.oneProduct Samples.missingProduct /\
  Product MoreSamples.oneProduct
    {| slug := lit " " ++ slug Samples.missingProduct ++ [9; 160]%N |} Samples.mixedQuery
    = Product MoreSamples.oneProduct Samples.missingProduct Samples.mixedQuery.
Proof.
  split; [reflexivity |]. split; [reflexivity |].
  apply (@padded_slug_same_product MoreSamples.oneProduct Samples.missingProduct
           (lit " ") [9; 160]%N Samples.mixedQuery); reflexivity.
Defined.

End SelectionMore.

(** ** The metadata of a product *)

Module MetadataFacts.
Import ProductPage.

Lemma split_at_nonempty (sep : code_unit) (cur s : jsstring) :
  split_at sep cur s <> [].
Proof.
  revert cur. induction s as [| c rest IH]; intros cur; simpl; [discriminate |].
  destruct (N.eqb c sep); [discriminate | apply IH].
Qed.

Lemma join_cons (sep p : jsstring) (rest : list jsstring) :
  rest <> [] -> join sep (p :: rest) = p ++ sep ++ join sep rest.
Proof. destruct rest; [congruence | reflexivity]. Qed.

Lemma join_split_at (sep : code_unit) (cur s : jsstring) :
  join [sep] (split_at sep cur s) = rev cur ++ s.
Proof.
  revert cur. induction s as [| c rest IH]; intros cur; simpl.
  - now rewrite app_nil_r.
  - destruct (N.eqb c sep) eqn:Hc.
    + apply N.eqb_eq in Hc. subst c.
      rewrite join_cons by apply split_at_nonempty.
      rewrite IH. reflexivity.
    + rewrite IH. simpl. now rewrite <- app_assoc.
Qed.

Lemma split_at_no_separator (sep : code_unit) (cur s : jsstring) :
  ~ In sep cur ->
  Forall (fun piece => ~ In sep piece) (split_at sep cur s).
Proof.
  revert cur. induction s as [| c rest IH]; intros cur Hcur; simpl.
  - constructor; [| constructor]. now rewrite <- in_rev.
  - destruct (N.eqb c sep) eqn:Hc.
    + constructor; [now rewrite <- in_rev | apply IH; auto].
    + apply IH. intros [-> | H]; [| auto].
      now rewrite N.eqb_refl in Hc.
Qed.

Section WithCatalog.

Variable getProduct : number -> option (list OptionValueId) -> option ProductData.

(** X1. The metadata step of the product page never ends with not-found. *)
Theorem product_metadata_always_returns (params : ProductPageParams) :
  exists metadata, generateMetadata getProduct params = Returned metadata.
Proof.
  unfold generateMetadata.
  destruct (getProduct (Number (PString (slug params))) None); eauto.
Qed.

(** X2. The keywords of a product with SEO keywords are the pieces between the
    commas: joined with commas they give the keywords string back, and no
    piece holds a comma. Without SEO keywords the property is [null]. *)
Theorem product_keywords_split (params : ProductPageParams) (product : ProductData)
  (Hfound : getProduct (Number (PString (slug params))) None = Some product) :
  exists metadata,
    generateMetadata getProduct params = Returned metadata /\
    match keywords metadata with
    | Present (KeywordList pieces) =>
        metaKeywords (seo product) <> [] /\
        join (lit ",") pieces = metaKeywords (seo product) /\
        pieces <> [] /\
        Forall (fun piece => ~ In (cu ",") piece) pieces
    | Null => metaKeywords (seo product) = []
    | _ => False
    end.
Proof.
  unfold generateMetadata. rewrite Hfound.
  eexists. split; [reflexivity |]. cbn [keywords].
  destruct (metaKeywords (seo product)) as [| c rest] eqn:Hk; simpl string_truthy; cbv iota.
  - reflexivity.
  - split; [discriminate |]. unfold split. split; [| split].
    + apply (join_split_at (cu ",") [] (c :: rest)).
    + apply split_at_nonempty.
    + apply split_at_no_separator. intros [].
Qed.

(** X3. The description of a product is never empty: it is the SEO
    description when there is one, and otherwise at most 150 code units of
    the plain text followed by three dots. *)
Theorem product_description_bounded (params : ProductPageParams) (product : ProductData)
  (Hfound : getProduct (Number (PString (slug params))) None = Some product) :
  exists metadata text,
    generateMetadata getProduct params = Returned metadata /\
    description metadata = Present text /\
    text <> [] /\
    (metaDescription (seo product) <> [] -> text = metaDescription (seo product)) /\
    (metaDescription (seo product) = [] ->
       exists head,
         text = head ++ lit "..." /\
         List.length head = Nat.min 150 (List.length (plainTextDescription product)) /\
         head = firstn (List.length head) (plainTextDescription product)).
Proof.
  unfold generateMetadata. rewrite Hfound.
  eexists. eexists. split; [reflexivity |]. cbn [description].
  split; [reflexivity |].
  destruct (metaDescription (seo product)) as [| c rest] eqn:Hd; simpl string_truthy; cbv iota.
  - split; [| split; [congruence |]].
    + intros H. apply app_eq_nil in H as [_ H]. discriminate.
    + intros _. exists (slice0 150 (plainTextDescription product)).
      unfold slice0. split; [reflexivity |].
      rewrite length_firstn. split; [reflexivity |].
      destruct (Nat.le_ge_cases 150 (List.length (plainTextDescription product))) as [H | H].
      * now rewrite (Nat.min_l _ _ H).
      * rewrite (Nat.min_r _ _ H). now rewrite firstn_all, firstn_all2.
  - split; [discriminate |]. split; [reflexivity | discriminate].
Qed.

(** X4. The title of a product is the SEO title when there is one and the
    product's name otherwise; it is empty only if both are. *)
Theorem product_title_fallback (params : ProductPageParams) (product : ProductData)
  (Hfound : getProduct (Number (PString (slug params))) None = Some product) :
  exists metadata text,
    generateMetadata getProduct params = Returned metadata /\
    title metadata = Present text /\
    (pageTitle (seo product) <> [] -> text = pageTitle (seo product)) /\
    (pageTitle (seo product) = [] -> text = name product) /\
    (text = [] -> pageTitle (seo product) = [] /\ name product = []).
Proof.
  unfold generateMetadata. rewrite Hfound.
  eexists. eexists. split; [reflexivity |]. cbn [title].
  split; [reflexivity |].
  destruct (pageTitle (seo product)) as [| c rest] eqn:Ht; simpl string_truthy; cbv iota.
  - repeat split; auto. congruence.
  - repeat split; try discriminate; auto.
Qed.

(** X5. The social-sharing image is set exactly when the product has a default
    image with a non-empty URL, and then it is that one image, with its
    URL and alternative text; otherwise the property is [null]. *)
Theorem product_open_graph (params : ProductPageParams) (product : ProductData)
  (Hfound : getProduct (Number (PString (slug params))) None = Some product) :
  exists metadata,
    generateMetadata getProduct params = Returned metadata /\
    match openGraph metadata with
    | Present shared =>
        exists d,
          defaultImage product = Some d /\
          DefaultImage.url d <> [] /\
          shared = [{| og_url := DefaultImage.url d; og_alt := DefaultImage.altText d |}]
    | Null =>
        match defaultImage product with
        | Some d => DefaultImage.url d = []
        | None => True
        end
    | Absent => False
    end.
Proof.
  unfold generateMetadata. rewrite Hfound.
  eexists. split; [reflexivity |]. cbn [openGraph].
  destruct (defaultImage product) as [d |]; [| exact I].
  destruct (DefaultImage.url d) as [| c rest] eqn:Hu; simpl string_truthy; cbv iota.
  - reflexivity.
  - exists d. rewrite Hu. repeat split. discriminate.
Qed.

End WithCatalog.

Lemma product_keywords_split_witness :
  MoreSamples.oneProduct (Number (PString (slug Samples.missingProduct))) None
    = Some MoreSamples.described /\
  generateMetadata MoreSamples.oneProduct Samples.missingProduct
    = Returned
        {| title := Present (lit "Mug");
           description := Present (lit "A mug....");
           keywords := Present (KeywordList [lit "mug"; []; lit "cup"]);
           openGraph := Present [{| og_url := lit "b.png"; og_alt := lit "front" |}] |} /\
  exists metadata,
    generateMetadata MoreSamples.oneProduct Samples.missingProduct = Returned metadata /\
    match keywords metadata with
    | Present (KeywordList pieces) =>
        metaKeywords (seo MoreSamples.described) <> [] /\
        join (lit ",") pieces = metaKeywords (seo MoreSamples.described) /\
        pieces <> [] /\
        Forall (fun piece => ~ In (cu ",") piece) pieces
    | Null => metaKeywords (seo MoreSamples.described) = []
    | _ => False
    end.
Proof.
  split; [reflexivity |]. split; [reflexivity |].
  apply (@product_keywords_split MoreSamples.oneProduct Samples.missingProduct
           MoreSamples.described).
  reflexivity.
Defined.

Lemma product_description_bounded_witness :
  MoreSamples.oneProduct (Number (PString (slug Samples.missingProduct))) None
    = Some MoreSamples.described /\
  exists metadata text,
    generateMetadata MoreSamples.oneProduct Samples.missingProduct = Returned metadata /\
    description metadata = Present text /\
    text <> [] /\
    (metaDescription (seo MoreSamples.described) <> [] ->
       text = metaDescription (seo MoreSamples.described)) /\
    (metaDescription (seo MoreSamples.described) = [] ->
       exists head,
         text = head ++ lit "..." /\
         List.length head =
           Nat.min 150 (List.length (plainTextDescription MoreSamples.described)) /\
         head = firstn (List.length head) (plainTextDescription MoreSamples.described)).
Proof.
  split; [reflexivity |].
  apply (@product_description_bounded MoreSamples.oneProduct Samples.missingProduct
           MoreSamples.described).
  reflexivity.
Defined.

Lemma product_title_fallback_witness :
  MoreSamples.oneProduct (Number (PString (slug Samples.missingProduct))) None
    = Some MoreSamples.described /\
  exists metadata text,
    generateMetadata MoreSamples.oneProduct Samples.missingProduct = Returned metadata /\
    title metadata = Present text /\
    (pageTitle (seo MoreSamples.described) <> [] ->
       text = pageTitle (seo MoreSamples.described)) /\
    (pageTitle (seo MoreSamples.described) = [] -> text = name MoreSamples.described) /\
    (text = [] ->
       pageTitle (seo MoreSamples.described) = [] /\ name MoreSamples.described = []).
Proof.
  split; [reflexivity |].
  apply (@product_title_fallback MoreSamples.oneProduct Samples.missingProduct
           MoreSamples.described).
  reflexivity.
Defined.

Lemma product_open_graph_witness :
  MoreSamples.oneProduct (Number (PString (slug Samples.missingProduct))) None
    = Some MoreSamples.described /\
  exists metadata,
    generateMetadata MoreSamples.oneProduct Samples.missingProduct = Returned metadata /\
    match openGraph metadata with
    | Present shared =>
        exists d,
          defaultImage MoreSamples.described = Some d /\
          DefaultImage.url d <> [] /\
          shared = [{| og_url := DefaultImage.url d; og_alt := DefaultImage.altText d |}]
    | Null =>
        match defaultImage MoreSamples.described with
        | Some d => DefaultImage.url d = []
        | None => True
        end
    | Absent => False
    end.
Proof.
  split; [reflexivity |].
  apply (@product_open_graph MoreSamples.oneProduct Samples.missingProduct
           MoreSamples.described).
  reflexivity.
Defined.

End MetadataFacts.

(** ** More on image reconciliation and the render step *)

Module GalleryFacts.
Import ProductPage ImageFacts.

Lemma first_flagged_after_reconcile (product : ProductData) (d : DefaultImage.t) :
  defaultImage product = Some d ->
  exists top,
    topLevelDefaultImg (reconcileImages product) = Some top /\
    url top = DefaultImage.url d /\
    isDefault top = true.
Proof.
  intros Hd.
  rewrite (reconcile_unfold_some product Hd).
  destruct (urlDiffers (topLevelDefaultImg product) d) eqn:Hdiff.
  - exists (canonicalEntry d). unfold topLevelDefaultImg. simpl.
    rewrite find_clearDefault. simpl. auto.
  - unfold urlDiffers in Hdiff.
    destruct (topLevelDefaultImg product) as [top |] eqn:Htop; [| discriminate].
    exists top. split; [reflexivity |].
    apply negb_false_iff, JsFacts.string_eqb_eq in Hdiff.
    split; [exact Hdiff |].
    unfold topLevelDefaultImg in Htop. now apply find_some in Htop.
Qed.

(** X6. After reconciliation the first flagged image carries the canonical
    URL, whatever the catalog flagged. *)
Theorem reconciled_default_is_canonical (product : ProductData) (d : DefaultImage.t)
  (Hd : defaultImage product = Some d) :
  exists top,
    topLevelDefaultImg (reconcileImages product) = Some top /\
    url top = DefaultImage.url d /\
    isDefault top = true.
Proof. now apply first_flagged_after_reconcile. Qed.

Lemma reconciled_default_is_canonical_witness :
  defaultImage Samples.secondMatches = Some (Samples.canonical "b.png") /\
  exists top,
    topLevelDefaultImg (reconcileImages Samples.secondMatches) = Some top /\
    url top = DefaultImage.url (Samples.canonical "b.png") /\
    isDefault top = true.
Proof.
  split; [reflexivity |].
  apply (@reconciled_default_is_canonical Samples.secondMatches (Samples.canonical "b.png")).
  reflexivity.
Defined.

Lemma map_url_clearDefault (imgs : list Image) :
  map url (map clearDefault imgs) = map url imgs /\
  map altText (map clearDefault imgs) = map altText imgs.
Proof.
  induction imgs as [| image rest [IHu IHa]]; simpl; [auto |].
  now rewrite IHu, IHa.
Qed.

(** X7. Reconciliation never drops, reorders or renames a catalog image: the
    URLs and alternative texts of the catalog images are the first ones of
    the result, which has at most one image more; the other fields of the
    product are untouched. *)
Theorem reconcileImages_keeps_catalog (product : ProductData) :
  map url (firstn (List.length (images product)) (images (reconcileImages product)))
    = map url (images product) /\
  map altText (firstn (List.length (images product)) (images (reconcileImages product)))
    = map altText (images product) /\
  (List.length (images (reconcileImages product)) = List.length (images product) \/
   List.length (images (reconcileImages product)) = S (List.length (images product))) /\
  defaultImage (reconcileImages product) = defaultImage product /\
  prices (reconcileImages product) = prices product /\
  seo (reconcileImages product) = seo product /\
  name (reconcileImages product) = name product /\
  entityId (reconcileImages product) = entityId product.
Proof.
  unfold reconcileImages.
  destruct (defaultImage product) as [d |] eqn:Hd.
  - destruct (urlDiffers (topLevelDefaultImg product) d).
    + cbn [images setImages defaultImage prices seo name entityId].
      rewrite <- (length_map clearDefault (images product)) at 1 2.
      rewrite firstn_app, firstn_all, Nat.sub_diag. simpl firstn. rewrite app_nil_r.
      destruct (map_url_clearDefault (images product)) as [Hu Ha].
      rewrite Hu, Ha, length_app, length_map. simpl.
      repeat split; auto. right. lia.
    + rewrite firstn_all. repeat split; auto.
  - rewrite firstn_all. repeat split; auto.
Qed.

(** X8. The image list changes exactly when there is a canonical default image
    and the first flagged image (if any) has another URL. *)
Theorem reconcileImages_changes_iff (product : ProductData) :
  images (reconcileImages product) <> images product <->
  exists d, defaultImage product = Some d /\
            urlDiffers (topLevelDefaultImg product) d = true.
Proof.
  unfold reconcileImages. split.
  - destruct (defaultImage product) as [d |]; [| congruence].
    destruct (urlDiffers (topLevelDefaultImg product) d) eqn:Hdiff; [| congruence].
    intros _. eauto.
  - intros (d & Hd & Hdiff). rewrite Hd, Hdiff. simpl.
    intros H. apply (f_equal (@List.length Image)) in H.
    rewrite length_app, length_map in H. simpl in H. lia.
Qed.

Section WithCatalog.

Variable getProduct : number -> option (list OptionValueId) -> option ProductData.

(** X9. For a product the catalog has, the render step returns; the gallery
    gets the images of the very product the details get; when the product
    has a canonical default image, the first flagged image of the gallery
    carries its URL. *)
Theorem gallery_shows_canonical_default
  (params : ProductPageParams) (searchParams : SearchParams) (fetched : ProductData)
  (Hfound : getProduct (Number (PString (slug params)))
                       (Some (optionValueIds searchParams)) = Some fetched) :
  exists view,
    Product getProduct params searchParams = Returned view /\
    gallery_images view = images (details_product view) /\
    details_product view = descriptionAndReviews_product view /\
    forall d, defaultImage fetched = Some d ->
      exists top,
        find isDefault (gallery_images view) = Some top /\
        url top = DefaultImage.url d.
Proof.
  unfold Product. rewrite Hfound. eexists. split; [reflexivity |].
  cbn [gallery_images details_product descriptionAndReviews_product].
  repeat split.
  intros d Hd.
  destruct (@first_flagged_after_reconcile fetched d Hd) as (top & Htop & Hurl & _).
  exists top. split; [exact Htop | exact Hurl].
Qed.

(** X10. The selection handed to the related products is the one the product
    was fetched with, none of its entries has a [NaN] identifier, and the
    product identifier handed on is the one fetched. *)
Theorem render_passes_selection_on
  (params : ProductPageParams) (searchParams : SearchParams) (fetched : ProductData)
  (Hfound : getProduct (Number (PString (slug params)))
                       (Some (optionValueIds searchParams)) = Some fetched) :
  exists view,
    Product getProduct params searchParams = Returned view /\
    getProduct (related_productId view) (Some (related_optionValueIds view)) = Some fetched /\
    breadCrumbs_productId view = related_productId view /\
    Forall (fun o => isNaN (optionEntityId o) = false /\ isNaN (valueEntityId o) = false)
      (related_optionValueIds view).
Proof.
  unfold Product. rewrite Hfound. eexists. split; [reflexivity |].
  cbn [related_productId related_optionValueIds breadCrumbs_productId].
  split; [exact Hfound |]. split; [reflexivity |].
  apply Forall_forall. intros o Ho.
  apply SelectionFacts.bothParsed_iff. now apply SelectionFacts.optionValueIds_parsed in Ho.
Qed.

End WithCatalog.

Lemma gallery_shows_canonical_default_witness :
  MoreSamples.oneProduct (Number (PString (slug Samples.missingProduct)))
    (Some (optionValueIds Samples.mixedQuery)) = Some MoreSamples.described /\
  exists view,
    Product MoreSamples.oneProduct Samples.missingProduct Samples.mixedQuery
      = Returned view /\
    gallery_images view = images (details_product view) /\
    details_product view = descriptionAndReviews_product view /\
    forall d, defaultImage MoreSamples.described = Some d ->
      exists top,
        find isDefault (gallery_images view) = Some top /\
        url top = DefaultImage.url d.
Proof.
  split; [reflexivity |].
  apply (@gallery_shows_canonical_default MoreSamples.oneProduct Samples.missingProduct
           Samples.mixedQuery MoreSamples.described).
  reflexivity.
Defined.

Lemma render_passes_selection_on_witness :
  MoreSamples.oneProduct (Number (PString (slug Samples.missingProduct)))
    (Some (optionValueIds Samples.mixedQuery)) = Some MoreSamples.described /\
  exists view,
    Product MoreSamples.oneProduct Samples.missingProduct Samples.mixedQuery
      = Returned view /\
    MoreSamples.oneProduct (related_productId view) (Some (related_optionValueIds view))
      = Some MoreSamples.described /\
    breadCrumbs_productId view = related_productId view /\
    Forall (fun o => isNaN (optionEntityId o) = false /\ isNaN (valueEntityId o) = false)
      (related_optionValueIds view).
Proof.
  split; [reflexivity |].
  apply (@render_passes_selection_on MoreSamples.oneProduct Samples.missingProduct
           Samples.mixedQuery MoreSamples.described).
  reflexivity.
Defined.

End GalleryFacts.

(** ** More on the price block *)

Module PriceMore.
Import ProductPage PriceFacts.

Section WithFormatter.

Variable format : number -> jsstring.

(** X18. When the two ends of the price range differ, the block shows the range
    line alone: no MSRP line, no Was/Now display, no plain price. *)
Theorem range_shown_alone (product : ProductData) (p : Prices)
  (Hp : prices product = Some p)
  (Hrange : showPriceRange product = true) :
  pieces (priceBlock format product) = [rangeLine format p] /\
  existsb isRange (pieces (priceBlock format product)) = true /\
  existsb isMsrp (pieces (priceBlock format product)) = false /\
  existsb isWasNow (pieces (priceBlock format product)) = false /\
  existsb isPlainPrice (pieces (priceBlock format product)) = false.
Proof.
  unfold priceBlock. rewrite Hp, Hrange. repeat split.
Qed.

(** X19. When the two ends of the range are equal, no range line is shown and
    the Was/Now display and the plain price are never shown together. *)
Theorem flat_price_displays (product : ProductData) (p : Prices)
  (Hp : prices product = Some p)
  (Hflat : showPriceRange product = false) :
  existsb isRange (pieces (priceBlock format product)) = false /\
  (existsb isWasNow (pieces (priceBlock format product))
   && existsb isPlainPrice (pieces (priceBlock format product))) = false /\
  List.length (pieces (priceBlock format product)) = 2.
Proof.
  rewrite (priceBlock_flat format product Hp Hflat).
  unfold plainPrice.
  destruct (retailPrice p), (salePrice p), (basePrice p),
    (number_truthy (value (price p))); repeat split.
Qed.

(** X20. A plain price whose value is truthy is shown formatted and not struck
    through, when there is no sale price or no base price and the range
    ends are equal. *)
Theorem truthy_price_formatted (product : ProductData) (p : Prices)
  (Hp : prices product = Some p)
  (Hflat : showPriceRange product = false)
  (Hnosale : salePrice p = None \/ basePrice p = None)
  (Htruthy : number_truthy (value (price p)) = true) :
  nth_error (pieces (priceBlock format product)) 1 =
    Some (Fragment [Text (format (value (price p)))]) /\
  existsb isPlainPrice (pieces (priceBlock format product)) = true /\
  existsb isWasNow (pieces (priceBlock format product)) = false.
Proof.
  rewrite (priceBlock_flat format product Hp Hflat). unfold plainPrice.
  rewrite Htruthy.
  destruct Hnosale as [H | H]; rewrite H;
    destruct (retailPrice p); try destruct (salePrice p); repeat split.
Qed.

End WithFormatter.

Lemma range_shown_alone_witness :
  prices MoreSamples.rangeProduct = Some MoreSamples.rangePrices /\
  showPriceRange MoreSamples.rangeProduct = true /\
  pieces (priceBlock Samples.dollars MoreSamples.rangeProduct) =
    [Elem "p" "text-h4"
       [Text (lit "$"); Text (lit " -"); Text (lit " "); Text (lit "$")]] /\
  existsb isRange (pieces (priceBlock Samples.dollars MoreSamples.rangeProduct)) = true /\
  existsb isMsrp (pieces (priceBlock Samples.dollars MoreSamples.rangeProduct)) = false /\
  existsb isWasNow (pieces (priceBlock Samples.dollars MoreSamples.rangeProduct)) = false /\
  existsb isPlainPrice (pieces (priceBlock Samples.dollars MoreSamples.rangeProduct)) = false.
Proof.
  split; [reflexivity |]. split; [reflexivity |].
  apply (@range_shown_alone Samples.dollars MoreSamples.rangeProduct MoreSamples.rangePrices);
    reflexivity.
Defined.

Lemma flat_price_displays_witness :
  prices Samples.saleProduct = Some Samples.saleNoRetail /\
  showPriceRange Samples.saleProduct = false /\
  existsb isRange (pieces (priceBlock Samples.dollars Samples.saleProduct)) = false /\
  (existsb isWasNow (pieces (priceBlock Samples.dollars Samples.saleProduct))
   && existsb isPlainPrice (pieces (priceBlock Samples.dollars Samples.saleProduct))) = false /\
  List.length (pieces (priceBlock Samples.dollars Samples.saleProduct)) = 2.
Proof.
  split; [reflexivity |]. split; [reflexivity |].
  apply (@flat_price_displays Samples.dollars Samples.saleProduct Samples.saleNoRetail);
    reflexivity.
Defined.

Lemma truthy_price_formatted_witness :
  prices Samples.plainProduct = Some (Samples.flatPrices 25%float) /\
  showPriceRange Samples.plainProduct = false /\
  number_truthy (value (price (Samples.flatPrices 25%float))) = true /\
  nth_error (pieces (priceBlock Samples.dollars Samples.plainProduct)) 1 =
    Some (Fragment [Text (Samples.dollars 25%float)]) /\
  existsb isPlainPrice (pieces (priceBlock Samples.dollars Samples.plainProduct)) = true /\
  existsb isWasNow (pieces (priceBlock Samples.dollars Samples.plainProduct)) = false.
Proof.
  split; [reflexivity |]. split; [reflexivity |]. split; [reflexivity |].
  apply (@truthy_price_formatted Samples.dollars Samples.plainProduct
           (Samples.flatPrices 25%float)); try reflexivity.
  left; reflexivity.
Defined.

End PriceMore.

(** ** The content page *)

Module ContentFacts.
Import ContentPage.

Section WithSite.

Variable ReCaptchaSettings : Type.
Variable getWebPage : jsstring -> option WebPageData.
Variable getReCaptchaSettings : ReCaptchaSettings.

(** X21. The two steps of the content page agree: each ends with not-found
    exactly when there is no page under the path, which is the page
    parameter after a slash. *)
Theorem content_steps_agree (params : WebPageParams) :
  (generateMetadata getWebPage params = NotFound <->
     getWebPage (cu "/" :: page params) = None) /\
  (WebPage getWebPage getReCaptchaSettings params = NotFound <->
     getWebPage (cu "/" :: page params) = None).
Proof.
  unfold generateMetadata, WebPage.
  change (pathOf params) with (cu "/" :: page params).
  destruct (getWebPage (cu "/" :: page params)) as [webpage |]; simpl.
  - split; (split; [| intros H; discriminate H]).
    + intros H; discriminate H.
    + destruct (typename webpage); intros H; discriminate H.
  - split; split; reflexivity.
Qed.

(** X22. For a page that exists, the render step shows the page's body under
    the page's name, and adds the contact form, with the page's fields,
    its identifier and the reCAPTCHA settings, exactly when the page is a
    contact page; any other page type is rendered as a normal page. *)
Theorem contact_form_iff_contact_page (params : WebPageParams) (webpage : WebPageData)
  (Hfound : getWebPage (pathOf params) = Some webpage) :
  exists view,
    WebPage getWebPage getReCaptchaSettings params = Returned view /\
    match view with
    | PageContentAndContactUs content heading fields pageEntityId settings =>
        typename webpage = ContactPage /\
        content = htmlBody webpage /\ heading = name webpage /\
        fields = contactFields webpage /\ pageEntityId = entityId webpage /\
        settings = getReCaptchaSettings
    | PageContentOnly _ content heading =>
        typename webpage <> ContactPage /\
        content = htmlBody webpage /\ heading = name webpage
    end.
Proof.
  unfold WebPage. rewrite Hfound. simpl.
  destruct (typename webpage) eqn:Htype; eexists; (split; [reflexivity |]);
    cbv beta iota; repeat split; congruence.
Qed.

End WithSite.

Lemma contact_form_iff_contact_page_witness :
  MoreSamples.oneSite (pathOf Samples.aboutPage) = Some MoreSamples.contactPage /\
  WebPage MoreSamples.oneSite tt Samples.aboutPage =
    Returned (PageContentAndContactUs (lit "<p>Write to us</p>") (lit "Contact")
                [lit "email"] 5%float tt) /\
  exists view,
    WebPage MoreSamples.oneSite tt Samples.aboutPage = Returned view /\
    match view with
    | PageContentAndContactUs content heading fields pageEntityId settings =>
        typename MoreSamples.contactPage = ContactPage /\
        content = htmlBody MoreSamples.contactPage /\
        heading = name MoreSamples.contactPage /\
        fields = contactFields MoreSamples.contactPage /\
        pageEntityId = entityId MoreSamples.contactPage /\
        settings = tt
    | PageContentOnly _ content heading =>
        typename MoreSamples.contactPage <> ContactPage /\
        content = htmlBody MoreSamples.contactPage /\
        heading = name MoreSamples.contactPage
    end.
Proof.
  split; [reflexivity |]. split; [reflexivity |].
  apply (@contact_form_iff_contact_page unit MoreSamples.oneSite tt Samples.aboutPage
           MoreSamples.contactPage).
  reflexivity.
Defined.

End ContentFacts.

(** ** The additional details *)

Module DetailsFacts.
Import ProductPage Details.

Lemma customFieldEntries_boxes (fields : list CustomField) :
  Forall (fun n => isDetailBox n = true) (map customFieldEntry fields).
Proof.
  induction fields as [| field rest IH]; simpl; constructor; [reflexivity | exact IH].
Qed.

(** X23. Every child displayed in the grid of additional details is a box with
    a heading and a paragraph: a falsy field (an empty SKU, a quantity of
    zero, [null]) leaves nothing behind, not even its bare value. The boxes
    are those of the truthy fixed fields and one per custom field. *)
Theorem details_grid_boxes (format : number -> jsstring)
  (product : ProductData) (f : DetailFields) :
  exists grid,
    view_additional (ProductDetails format product f) =
      Elem "div" "my-12"
        [Elem "h2" "mb-4 text-h5" [Text (lit "Additional details")];
         Elem "div" "grid gap-3 sm:grid-cols-2" grid] /\
    Forall (fun n => isDetailBox n = true) (displayed grid) /\
    List.length (displayed grid) = fixedDetails f + customFieldCount f.
Proof.
  exists (detailsGrid f). split; [reflexivity |].
  unfold detailsGrid, fixedDetails, customFieldCount, displayed.
  pose proof (customFieldEntries_boxes) as Hboxes.
  destruct (Boolean (sku f)), (Boolean (upc f)), (Boolean (minPurchaseQuantity f)),
    (Boolean (maxPurchaseQuantity f)),
    (Boolean (availabilityDescription (availabilityV2 f))),
    (Boolean (condition f)), (weight f), (customFields f) as [fields |];
    simpl; rewrite ?app_nil_r, ?length_map;
    (split; [repeat (constructor; [reflexivity |]); auto | reflexivity]).
Qed.

End DetailsFacts.
